(** * TaskView.js: the week view of LifeManager

    A shallow embedding of [frontend/src/components/TaskView.js] and of the
    part of the JavaScript [Date] object the component relies on.

    - [JsDate] follows ECMA-262, clause "Date Objects": a time value is an
      integral number of milliseconds since the epoch or NaN, the calendar
      is the proleptic Gregorian one, and the local time zone is a fixed
      offset [tza] from UTC.
    - [TaskView] follows the component function by function: the handlers
      run in a small monad that records the remote calls and the state
      updates they issue, and React applies the recorded updates. *)

From stdpp Require Import base numbers option list strings gmap.
From Stdlib Require Import ZArith Lia.

Local Open Scope Z_scope.

(** ** JavaScript strings

    A JavaScript string is a sequence of UTF-16 code units. *)

Abbreviation JsString := (list N).

(** The code units of a Latin-1 literal. *)
Definition js (s : String.string) : JsString :=
  Ascii.N_of_ascii <$> String.list_ascii_of_string s.
Arguments js s%_string : simpl never.

(** ** Completions: a value, or a thrown exception *)

Inductive Thrown :=
| TypeError
| RangeError
| Reason (r : JsString).   (* the rejection reason of a remote call *)

Inductive Completion (A : Type) :=
| Normal (a : A)
| Throw (e : Thrown).
Arguments Normal {A} a.
Arguments Throw {A} e.

#[export] Instance Completion_ret : MRet Completion := @Normal.
#[export] Instance Completion_bind : MBind Completion := fun A B f c =>
  match c with Normal a => f a | Throw e => Throw e end.

Module JsDate.

(** *** Day number and time within day *)

Definition msPerDay : Z := 86400000.

Definition Day (t : Z) : Z := t / msPerDay.
Definition TimeWithinDay (t : Z) : Z := t mod msPerDay.

(** *** Year number *)

Definition isLeap (y : Z) : bool :=
  (y mod 4 =? 0) && (negb (y mod 100 =? 0) || (y mod 400 =? 0)).

Definition DaysInYear (y : Z) : Z := if isLeap y then 366 else 365.

Definition DayFromYear (y : Z) : Z :=
  365 * (y - 1970) + (y - 1969) / 4 - (y - 1901) / 100 + (y - 1601) / 400.

(** "The largest integer y such that TimeFromYear(y) <= t": the estimate
    from the mean length of a year is off by at most one ([YearFromDay_spec]). *)
Definition YearFromDay (n : Z) : Z :=
  let y := 1970 + (400 * n) / 146097 in
  if n <? DayFromYear y then y - 1
  else if DayFromYear (y + 1) <=? n then y + 1
  else y.

Definition YearFromTime (t : Z) : Z := YearFromDay (Day t).

Definition leapDays (y : Z) : Z := if isLeap y then 1 else 0.
Definition InLeapYear (t : Z) : Z := leapDays (YearFromTime t).

(** *** Month number and date number *)

Definition DayWithinYear (t : Z) : Z := Day t - DayFromYear (YearFromTime t).

(** The day within the year on which month [m] (0 = January) starts. *)
Definition monthStart (leap m : Z) : Z :=
  match m with
  | 0 => 0
  | 1 => 31
  | 2 => 59 + leap
  | 3 => 90 + leap
  | 4 => 120 + leap
  | 5 => 151 + leap
  | 6 => 181 + leap
  | 7 => 212 + leap
  | 8 => 243 + leap
  | 9 => 273 + leap
  | 10 => 304 + leap
  | _ => 334 + leap
  end.

Definition monthOfDay (leap d : Z) : Z :=
  if d <? 31 then 0
  else if d <? 59 + leap then 1
  else if d <? 90 + leap then 2
  else if d <? 120 + leap then 3
  else if d <? 151 + leap then 4
  else if d <? 181 + leap then 5
  else if d <? 212 + leap then 6
  else if d <? 243 + leap then 7
  else if d <? 273 + leap then 8
  else if d <? 304 + leap then 9
  else if d <? 334 + leap then 10
  else 11.

Definition MonthFromTime (t : Z) : Z := monthOfDay (InLeapYear t) (DayWithinYear t).

Definition DateFromTime (t : Z) : Z :=
  DayWithinYear t - monthStart (InLeapYear t) (MonthFromTime t) + 1.

Definition DaysInMonth (y m : Z) : Z :=
  match m with
  | 1 => 28 + leapDays y
  | 3 | 5 | 8 | 10 => 30
  | _ => 31
  end.

(** *** Week day: 0 is Sunday, ..., 6 is Saturday *)

Definition WeekDay (t : Z) : Z := (Day t + 4) mod 7.

(** *** Hours, minutes, seconds and milliseconds *)

Definition HourFromTime (t : Z) : Z := (t / 3600000) mod 24.
Definition MinFromTime (t : Z) : Z := (t / 60000) mod 60.
Definition SecFromTime (t : Z) : Z := (t / 1000) mod 60.
Definition msFromTime (t : Z) : Z := t mod 1000.

(** *** MakeTime, MakeDay, MakeDate, TimeClip *)

Definition MakeTime (hour min sec ms : Z) : Z :=
  hour * 3600000 + min * 60000 + sec * 1000 + ms.

(** The day number of the first day of month [mn] of year [ym], moved by
    [date - 1] days; a month outside 0..11 carries into the year. *)
Definition MakeDay (year month date : Z) : Z :=
  let ym := year + month / 12 in
  let mn := month mod 12 in
  DayFromYear ym + monthStart (leapDays ym) mn + date - 1.

Definition MakeDate (day time : Z) : Z := day * msPerDay + time.

Definition maxTime : Z := 8640000000000000.

(** NaN, here [None], beyond 100,000,000 days from the epoch. *)
Definition TimeClip (time : Z) : option Z :=
  if Z.abs time <=? maxTime then Some time else None.

(** *** Date.UTC: a year from 0 to 99 stands for 1900 + year *)

Definition MakeFullYear (year : Z) : Z :=
  if (0 <=? year) && (year <=? 99) then 1900 + year else year.

Definition Date_UTC (year month date : option Z) : option Z :=
  y ← year; m ← month; dt ← date;
  TimeClip (MakeDate (MakeDay (MakeFullYear y) m dt) (MakeTime 0 0 0 0)).

(** *** The date-only form of the date-time string format

    [YYYY-MM-DD], or with an expanded year [+YYYYYY-MM-DD] and
    [-YYYYYY-MM-DD]; it denotes midnight UTC. *)

Definition digit (d : Z) : N := Z.to_N (48 + d).

Fixpoint digits (w : nat) (n : Z) : JsString :=
  match w with
  | O => []
  | S w' => digits w' (n / 10) ++ [digit (n mod 10)]
  end.

Definition yearString (y : Z) : JsString :=
  if (0 <=? y) && (y <=? 9999) then digits 4 y
  else (if y <? 0 then js "-" else js "+") ++ digits 6 (Z.abs y).

Definition digitValue (c : N) : option Z :=
  if ((48 <=? c) && (c <=? 57))%N then Some (Z.of_N c - 48) else None.

(** Reads exactly [w] decimal digits; [acc] is the value read so far. *)
Fixpoint readDigits (w : nat) (acc : Z) (s : JsString) : option (Z * JsString) :=
  match w with
  | O => Some (acc, s)
  | S w' =>
      match s with
      | c :: s' => v ← digitValue c; readDigits w' (10 * acc + v) s'
      | [] => None
      end
  end.

Definition expect (c : N) (s : JsString) : option JsString :=
  match s with
  | c' :: s' => if (c =? c')%N then Some s' else None
  | [] => None
  end.

(** An expanded year is signed and has six digits; "-000000" is not a year. *)
Definition readYear (s : JsString) : option (Z * JsString) :=
  match s with
  | c :: s' =>
      if (c =? 43)%N then readDigits 6 0 s'
      else if (c =? 45)%N then
        '(y, rest) ← readDigits 6 0 s';
        if y =? 0 then None else Some (- y, rest)
      else readDigits 4 0 s
  | [] => None
  end.

Definition readDateOnly (s : JsString) : option (Z * Z * Z) :=
  '(y, s1) ← readYear s;
  s2 ← expect 45 s1;
  '(m, s3) ← readDigits 2 0 s2;
  s4 ← expect 45 s3;
  '(d, s5) ← readDigits 2 0 s4;
  match s5 with
  | [] => Some (y, m, d)
  | _ => None
  end.

(** [Date.parse] on the date-only form. A string that does not name a day
    of the calendar (month 13, February 30) yields NaN; strings in the
    other forms [Date.parse] accepts are outside this model. *)
Definition parseDateOnly (s : JsString) : option Z :=
  '(y, m, d) ← readDateOnly s;
  if (1 <=? m) && (m <=? 12) && (1 <=? d) && (d <=? DaysInMonth y (m - 1))
  then TimeClip (MakeDate (MakeDay y (m - 1) d) (MakeTime 0 0 0 0))
  else None.

(** *** Date objects

    A Date object holds a time value; [None] is the Invalid Date, whose
    getters return NaN and whose setters leave it invalid. *)

Abbreviation Date := (option Z).

(** [new Date(string)] *)
Definition newDate_string (s : JsString) : Date := parseDateOnly s.

(** [new Date(number)] *)
Definition newDate_number (v : option Z) : Date := v ≫= TimeClip.

(** [new Date(date)] *)
Definition newDate_copy (d : Date) : Date := d.

(** [date.toISOString()]: the UTC fields, [YYYY-MM-DDTHH:mm:ss.sssZ]. *)
Definition toISOString (d : Date) : Completion JsString :=
  match d with
  | None => Throw RangeError
  | Some t =>
      Normal (yearString (YearFromTime t) ++ js "-"
              ++ digits 2 (MonthFromTime t + 1) ++ js "-"
              ++ digits 2 (DateFromTime t) ++ js "T"
              ++ digits 2 (HourFromTime t) ++ js ":"
              ++ digits 2 (MinFromTime t) ++ js ":"
              ++ digits 2 (SecFromTime t) ++ js "."
              ++ digits 3 (msFromTime t) ++ js "Z")
  end.

(** [s.split(sep)[0]] for a separator of one code unit: the code units
    before the first occurrence of [sep], all of [s] when there is none. *)
Fixpoint split_0 (sep : N) (s : JsString) : JsString :=
  match s with
  | [] => []
  | c :: s' => if (c =? sep)%N then [] else c :: split_0 sep s'
  end.

Section LocalTime.

(** The offset of local time from UTC, in milliseconds. *)
Variable tza : Z.

Definition LocalTime (t : Z) : Z := t + tza.
Definition UTC (t : Z) : Z := t - tza.

Definition getFullYear (d : Date) : option Z := t ← d; Some (YearFromTime (LocalTime t)).
Definition getMonth (d : Date) : option Z := t ← d; Some (MonthFromTime (LocalTime t)).
Definition getDate (d : Date) : option Z := t ← d; Some (DateFromTime (LocalTime t)).
Definition getDay (d : Date) : option Z := t ← d; Some (WeekDay (LocalTime t)).

(** [d.setDate(dt)]: the new time value, which the call also returns. *)
Definition setDate (d : Date) (dt : option Z) : Date :=
  t ← d; dt ← dt;
  let t := LocalTime t in
  let newDate := MakeDate (MakeDay (YearFromTime t) (MonthFromTime t) dt) (TimeWithinDay t) in
  TimeClip (UTC newDate).

(** The number of the local calendar day a date lies in, counted from
    1970-01-01: consecutive numbers are consecutive calendar days. *)
Definition localDay (d : Date) : option Z := t ← d; Some (Day (LocalTime t)).

End LocalTime.

End JsDate.

Module TaskView.

Import JsDate.

(** ** Data model *)

(** A task as the remote service returns it. *)
Record Task := {
  task_id : Z;
  task_name : JsString;
  task_completed : bool;
  task_date : JsString;
}.

(** The object [handleAddTask] sends, [{ name, completed, date }]. *)
Record TaskData := {
  data_name : JsString;
  data_completed : bool;
  data_date : JsString;
}.

(** The [tasksByDate] object. Its keys are the strings
    [formatDateToYYYYMMDD] produces, none of which names a property
    inherited from [Object.prototype], so reading an absent key yields
    [undefined], here [None]. *)
Abbreviation TasksByDate := (gmap JsString (list Task)).

(** ** The remote service *)

Inductive Request :=
| GetTasksByDate (date : JsString)
| AddTask (taskData : TaskData)
| ToggleTaskCompletion (taskId : Z)
| DeleteTask (taskId : Z).

(** A settled promise. *)
Inductive Settled (A : Type) :=
| Fulfilled (a : A)
| Rejected (e : Thrown).
Arguments Fulfilled {A} a.
Arguments Rejected {A} e.

(** [apiService]. How a call settles may depend on the calls issued
    before it, the first argument. *)
Record ApiService := {
  getTasksByDate : list Request → JsString → Settled (list Task);
  addTask : list Request → TaskData → Settled Task;
  toggleTaskCompletion : list Request → Z → Settled Task;
  deleteTask : list Request → Z → Settled unit;
}.

(** ** State updates

    The arguments the component passes to [setTasksByDate]: the object
    built by [fetchTasksForWeek], or one of the three updater functions,
    each with the variables it closes over. *)
Inductive TasksUpdate :=
| SetValue (tasksByDateTemp : TasksByDate)
| AddUpdater (formattedDate : JsString) (response : Task)
| ToggleUpdater (taskDate : JsString) (taskId : Z) (updatedTask : Task)
| DeleteUpdater (taskDate : JsString) (taskId : Z).

(** The next state React computes from the previous one. The updaters of
    toggle and delete call [map] and [filter] on [prevTasksByDate[taskDate]]
    and throw a TypeError when it is [undefined]. *)
Definition runUpdate (u : TasksUpdate) (prevTasksByDate : TasksByDate)
  : Completion TasksByDate :=
  match u with
  | SetValue tasksByDateTemp => Normal tasksByDateTemp
  | AddUpdater formattedDate response =>
      Normal (<[formattedDate :=
                default [] (prevTasksByDate !! formattedDate) ++ [response]]>
              prevTasksByDate)
  | ToggleUpdater taskDate taskId updatedTask =>
      match prevTasksByDate !! taskDate with
      | Some tasks =>
          Normal (<[taskDate :=
                    (λ task, if decide (task_id task = taskId)
                             then updatedTask else task) <$> tasks]>
                  prevTasksByDate)
      | None => Throw TypeError
      end
  | DeleteUpdater taskDate taskId =>
      match prevTasksByDate !! taskDate with
      | Some tasks =>
          Normal (<[taskDate := filter (λ task, task_id task ≠ taskId) tasks]>
                  prevTasksByDate)
      | None => Throw TypeError
      end
  end.

(** ** The effects of a handler, in the order they happen *)

Inductive Effect :=
| Remote (r : Request)
| SetTasksByDate (u : TasksUpdate)
| SetNewTask (value : JsString)
| SetSelectedDate (value : JsString)
| ConsoleError (message : JsString) (error : Thrown).

Definition requests (trace : list Effect) : list Request :=
  omap (λ e, match e with Remote r => Some r | _ => None end) trace.

(** A handler extends the trace and completes normally or throws. *)
Definition Handler (A : Type) : Type := list Effect → Completion A * list Effect.

#[export] Instance Handler_ret : MRet Handler := λ A a trace, (Normal a, trace).
#[export] Instance Handler_bind : MBind Handler := λ A B f m trace,
  match m trace with
  | (Normal a, trace') => f a trace'
  | (Throw e, trace') => (Throw e, trace')
  end.

Definition emit (e : Effect) : Handler unit := λ trace, (Normal (), trace ++ [e]).

Definition lift {A} (c : Completion A) : Handler A := λ trace, (c, trace).

(** [await] on a remote call: a rejected promise throws its reason. *)
Definition await {A} (r : Request) (settle : list Request → Settled A) : Handler A :=
  λ trace,
    (match settle (requests trace) with
     | Fulfilled a => Normal a
     | Rejected e => Throw e
     end, trace ++ [Remote r]).

(** [try { body } catch (error) { handler }] *)
Definition tryCatch {A} (body : Handler A) (handler : Thrown → Handler A) : Handler A :=
  λ trace,
    match body trace with
    | (Normal a, trace') => (Normal a, trace')
    | (Throw e, trace') => handler e trace'
    end.

(** ** String.prototype.trim *)

(** WhiteSpace and LineTerminator code units. *)
Definition isWhiteSpace (c : N) : bool :=
  ((c =? 9) || (c =? 10) || (c =? 11) || (c =? 12) || (c =? 13) || (c =? 32)
   || (c =? 160) || (c =? 5760) || ((8192 <=? c) && (c <=? 8202))
   || (c =? 8232) || (c =? 8233) || (c =? 8239) || (c =? 8287)
   || (c =? 12288) || (c =? 65279))%N.

Fixpoint trimStart (s : JsString) : JsString :=
  match s with
  | c :: s' => if isWhiteSpace c then trimStart s' else s
  | [] => []
  end.

Definition trim (s : JsString) : JsString :=
  reverse (trimStart (reverse (trimStart s))).

(** A string is truthy unless it is empty. *)
Definition truthy (s : JsString) : bool :=
  match s with [] => false | _ => true end.

(** ** The component *)

Section Component.

(** The local time zone and the remote service. *)
Variable tza : Z.
Variable apiService : ApiService.

(** Lines 12-15. *)
Definition formatDateToYYYYMMDD (date : Date) : Completion JsString :=
  let utcDate :=
    newDate_number
      (Date_UTC (getFullYear tza date) (getMonth tza date) (getDate tza date)) in
  s ← toISOString utcDate;
  Normal (split_0 84 s).

(** The number of days line 20 goes back from week day [day]. *)
Definition daysSinceMonday (day : Z) : Z := if day =? 0 then 6 else day - 1.

(** Lines 18-22. [date.setDate(diff)] changes the argument: the second
    component is the argument after the call. *)
Definition getStartOfWeek (date : Date) : Date * Date :=
  let day := getDay tza date in
  let diff :=
    d ← getDate tza date; day ← day;
    Some (d - daysSinceMonday day) in
  let date' := setDate tza date diff in
  (newDate_number date', date').

(** Lines 25-29. *)
Definition getEndOfWeek (startOfWeek : Date) : Date :=
  let endOfWeek := newDate_copy startOfWeek in
  setDate tza endOfWeek ((λ d, d + 6) <$> getDate tza startOfWeek).

(** Lines 32-40. *)
Definition generateWeekDates (startOfWeek : Date) : list Date :=
  (λ i,
     let date := newDate_copy startOfWeek in
     setDate tza date ((λ d, d + i) <$> getDate tza startOfWeek))
  <$> seqZ 0 7.

(** Lines 62-63 and 130-131. *)
Definition correctedDateOf (selectedDate : JsString) : Date :=
  let correctedDate := newDate_string selectedDate in
  setDate tza correctedDate ((λ d, d + 1) <$> getDate tza correctedDate).

(** Lines 65 and 132. *)
Definition startOfWeekOf (selectedDate : JsString) : Date :=
  (getStartOfWeek (correctedDateOf selectedDate)).1.

(** Lines 67 and 133. *)
Definition weekDatesOf (selectedDate : JsString) : list Date :=
  generateWeekDates (startOfWeekOf selectedDate).

(** Lines 47-55: the loop over [weekDates], with [tasksByDateTemp]. *)
Fixpoint fetchLoop (weekDates : list Date) (tasksByDateTemp : TasksByDate)
  : Handler TasksByDate :=
  match weekDates with
  | [] => mret tasksByDateTemp
  | date :: weekDates' =>
      formattedDate ← lift (formatDateToYYYYMMDD date);
      tasksByDateTemp' ←
        tryCatch
          (tasks ← await (GetTasksByDate formattedDate)
                     (λ h, getTasksByDate apiService h formattedDate);
           mret (<[formattedDate := tasks]> tasksByDateTemp))
          (λ error,
             emit (ConsoleError
                     (js "Error fetching tasks for date " ++ formattedDate ++ js ":")
                     error);;
             mret tasksByDateTemp);
      fetchLoop weekDates' tasksByDateTemp'
  end.

(** Lines 43-58. *)
Definition fetchTasksForWeek (weekDates : list Date) : Handler unit :=
  tasksByDateTemp ← fetchLoop weekDates ∅;
  emit (SetTasksByDate (SetValue tasksByDateTemp)).

(** Lines 61-70. *)
Definition useEffect (selectedDate : JsString) : Handler unit :=
  fetchTasksForWeek (weekDatesOf selectedDate).

(** Lines 72-91; [newTask] is the value of the state at the last render. *)
Definition handleAddTask (newTask : JsString) (date : Date) : Handler unit :=
  if truthy (trim newTask) then
    formattedDate ← lift (formatDateToYYYYMMDD date);
    tryCatch
      (let taskData :=
         {| data_name := newTask; data_completed := false;
            data_date := formattedDate |} in
       response ← await (AddTask taskData) (λ h, addTask apiService h taskData);
       emit (SetTasksByDate (AddUpdater formattedDate response));;
       emit (SetNewTask []))
      (λ error, emit (ConsoleError (js "Error adding task:") error))
  else mret ().

(** Lines 93-105. *)
Definition handleToggleCompletion (taskId : Z) (taskDate : JsString) : Handler unit :=
  tryCatch
    (updatedTask ← await (ToggleTaskCompletion taskId)
                     (λ h, toggleTaskCompletion apiService h taskId);
     emit (SetTasksByDate (ToggleUpdater taskDate taskId updatedTask)))
    (λ error, emit (ConsoleError (js "Error toggling task completion:") error)).

(** Lines 107-117. *)
Definition handleDeleteTask (taskId : Z) (taskDate : JsString) : Handler unit :=
  tryCatch
    (await (DeleteTask taskId) (λ h, deleteTask apiService h taskId);;
     emit (SetTasksByDate (DeleteUpdater taskDate taskId)))
    (λ error, emit (ConsoleError (js "Error deleting task:") error)).

(** Lines 119-123. *)
Definition navigateWeek (selectedDate direction : JsString) : Handler unit :=
  let newDate := newDate_string selectedDate in
  let newDate :=
    setDate tza newDate
      ((λ d, d + (if decide (direction = js "next") then 7 else -7))
       <$> getDate tza newDate) in
  value ← lift (formatDateToYYYYMMDD newDate);
  emit (SetSelectedDate value).

(** Lines 125-127; [now] is the current time. *)
Definition resetToToday (now : Z) : Handler unit :=
  value ← lift (formatDateToYYYYMMDD (Some now));
  emit (SetSelectedDate value).

End Component.

(** ** The state the component renders from *)

Record ViewState := {
  selectedDate : JsString;       (* from the calendar context *)
  newTask : JsString;
  tasksByDate : TasksByDate;
}.

(** What an effect does to the state: a state setter replaces its part of
    the state, and an updater that throws makes the render fail. *)
Definition applyEffect (st : ViewState) (e : Effect) : Completion ViewState :=
  match e with
  | SetTasksByDate u =>
      m ← runUpdate u (tasksByDate st);
      Normal {| selectedDate := selectedDate st; newTask := newTask st;
                tasksByDate := m |}
  | SetNewTask value =>
      Normal {| selectedDate := selectedDate st; newTask := value;
                tasksByDate := tasksByDate st |}
  | SetSelectedDate value =>
      Normal {| selectedDate := value; newTask := newTask st;
                tasksByDate := tasksByDate st |}
  | Remote _ | ConsoleError _ _ => Normal st
  end.

Fixpoint applyEffects (st : ViewState) (trace : list Effect) : Completion ViewState :=
  match trace with
  | [] => Normal st
  | e :: trace' => st' ← applyEffect st e; applyEffects st' trace'
  end.

(** The trace of a handler started on its own. *)
Definition run {A} (h : Handler A) : Completion A * list Effect := h [].

(** The state after a handler has run and React has applied its updates. *)
Definition after {A} (st : ViewState) (h : Handler A) : Completion ViewState :=
  applyEffects st (run h).2.

(** ** What the user can do on a rendered row (lines 144-183) *)

Inductive UserAction :=
| ChangeInput (value : JsString)                        (* line 175 *)
| ClickAdd (date : Date)                                (* line 178 *)
| ClickToggle (taskId : Z) (formattedDate : JsString)   (* line 158 *)
| ClickDelete (taskId : Z) (formattedDate : JsString).  (* line 162 *)

Definition handlerOf (tza : Z) (apiService : ApiService) (st : ViewState)
    (a : UserAction) : Handler unit :=
  match a with
  | ChangeInput value => emit (SetNewTask value)
  | ClickAdd date => handleAddTask tza apiService (newTask st) date
  | ClickToggle taskId formattedDate =>
      handleToggleCompletion apiService taskId formattedDate
  | ClickDelete taskId formattedDate =>
      handleDeleteTask apiService taskId formattedDate
  end.

Definition react (tza : Z) (apiService : ApiService) (st : ViewState)
    (a : UserAction) : Completion ViewState :=
  after st (handlerOf tza apiService st a).

(** A sequence of actions, each with the service as it answers then. *)
Fixpoint session (tza : Z) (st : ViewState) (steps : list (ApiService * UserAction))
  : Completion ViewState :=
  match steps with
  | [] => Normal st
  | (apiService, a) :: steps' =>
      st' ← react tza apiService st a; session tza st' steps'
  end.

(** A name that is empty or consists of white space only. *)
Definition blank (s : JsString) : Prop := Forall (λ c, isWhiteSpace c = true) s.

End TaskView.

Import JsDate TaskView.

(** * Vocabulary of the statements *)

(** The effects that set a part of the state. *)
Definition isUpdate (e : Effect) : Prop :=
  match e with Remote _ | ConsoleError _ _ => False | _ => True end.

(** The object the loop of [fetchTasksForWeek] builds from the formatted
    dates [keys], after the calls [history], starting from [acc]. *)
Fixpoint fetchedTasks (api : ApiService) (history : list Request)
    (keys : list JsString) (acc : TasksByDate) : TasksByDate :=
  match keys with
  | [] => acc
  | key :: keys' =>
      fetchedTasks api (history ++ [GetTasksByDate key]) keys'
        match getTasksByDate api history key with
        | Fulfilled tasks => <[key := tasks]> acc
        | Rejected _ => acc
        end
  end.

(** An action on a row of the week [weekDates], whose formatted dates are
    [keys]. *)
Definition inWeek (weekDates : list Date) (keys : list JsString) (a : UserAction) : Prop :=
  match a with
  | ChangeInput _ => True
  | ClickAdd date => date ∈ weekDates
  | ClickToggle _ formattedDate | ClickDelete _ formattedDate => formattedDate ∈ keys
  end.

(** A click on "Previous Week" or "Next Week" (lines 138 and 140). *)
Definition navigate (tza : Z) (st : ViewState) (direction : JsString)
  : Completion ViewState :=
  after st (navigateWeek tza (selectedDate st) direction).

Definition nextThenPrevious (tza : Z) (st : ViewState) : Completion ViewState :=
  st' ← navigate tza st (js "next"); navigate tza st' (js "previous").

(** * Sample data *)

(** A service that accepts or rejects every call as [accept] says; it
    returns the task sent with identifier 7, and has no tasks for any date. *)
Definition sampleService (accept : bool) : ApiService :=
  let settle {A} (a : A) : Settled A :=
    if accept then Fulfilled a else Rejected (Reason (js "Network Error")) in
  {| getTasksByDate := λ _ _, settle [];
     addTask := λ _ data,
       settle {| task_id := 7; task_name := data_name data;
                 task_completed := data_completed data;
                 task_date := data_date data |};
     toggleTaskCompletion := λ _ taskId,
       settle {| task_id := taskId; task_name := js "Water the plants";
                 task_completed := true; task_date := js "2024-06-12" |};
     deleteTask := λ _ _, settle () |}.

Definition sampleTask (taskId : Z) : Task :=
  {| task_id := taskId; task_name := js "Water the plants";
     task_completed := false; task_date := js "2024-06-12" |}.

(** A service that has one task for every date, and fails on 2024-06-13. *)
Definition flakyService : ApiService :=
  {| getTasksByDate := λ _ date,
       if decide (date = js "2024-06-13")
       then Rejected (Reason (js "Network Error"))
       else Fulfilled [sampleTask 1];
     addTask := addTask (sampleService true);
     toggleTaskCompletion := toggleTaskCompletion (sampleService true);
     deleteTask := deleteTask (sampleService true) |}.

Definition sampleState (name : JsString) (tasks : TasksByDate) : ViewState :=
  {| selectedDate := js "2024-06-12"; newTask := name; tasksByDate := tasks |}.

(** The week of 2024-06-12. *)
Definition sampleKeys : list JsString :=
  [js "2024-06-10"; js "2024-06-11"; js "2024-06-12"; js "2024-06-13";
   js "2024-06-14"; js "2024-06-15"; js "2024-06-16"].

(** What [flakyService] has for that week. *)
Definition sampleFetched : TasksByDate :=
  list_to_map ((λ key, (key, [sampleTask 1])) <$>
    [js "2024-06-10"; js "2024-06-11"; js "2024-06-12";
     js "2024-06-14"; js "2024-06-15"; js "2024-06-16"]).

Definition sampleWeek : list Date :=
  (λ i, Some (1717977600000 + i * msPerDay)) <$> seqZ 0 7.

(** * The rendered rows (lines 129-186)

    What the component returns, without its styling: one row per date of
    the week, with the day of the month, the tasks under the formatted
    date, the shared input, and the actions the row offers. The heading
    and the week day letter come from [toLocaleDateString] and are left
    out. *)

(** A task of a row (lines 157-168). *)
Record TaskItem := {
  item_key : Z;                 (* key={task.id} *)
  item_className : JsString;
  item_text : JsString;         (* {task.name} *)
  item_onToggle : UserAction;   (* the span's onClick *)
  item_onDelete : UserAction;   (* the button's onClick *)
}.

(** A row of the table (lines 148-181). *)
Record Row := {
  row_key : nat;                (* key={index} *)
  row_day : option Z;           (* {date.getDate()} *)
  row_items : list TaskItem;
  row_input : JsString;         (* value={newTask} *)
  row_onChange : JsString -> UserAction;
  row_onAdd : UserAction;
}.

(** Lines 157-168, for one task of the row of [formattedDate]. *)
Definition renderTask (formattedDate : JsString) (task : Task) : TaskItem :=
  {| item_key := task_id task;
     item_className :=
       js "task-item " ++ (if task_completed task then js "completed" else []);
     item_text := task_name task;
     item_onToggle := ClickToggle (task_id task) formattedDate;
     item_onDelete := ClickDelete (task_id task) formattedDate |}.

(** Lines 144-183, for one date of the week. *)
Definition renderRow (tza : Z) (st : ViewState) (index : nat) (date : Date)
  : Completion Row :=
  formattedDate ← formatDateToYYYYMMDD tza date;
  let tasks := default [] (tasksByDate st !! formattedDate) in
  Normal {| row_key := index;
            row_day := getDate tza date;
            row_items := renderTask formattedDate <$> tasks;
            row_input := newTask st;
            row_onChange := ChangeInput;
            row_onAdd := ClickAdd date |}.

(** [weekDates.map((date, index) => ...)], from [index] on. *)
Fixpoint renderRows (tza : Z) (st : ViewState) (index : nat) (weekDates : list Date)
  : Completion (list Row) :=
  match weekDates with
  | [] => Normal []
  | date :: weekDates' =>
      row ← renderRow tza st index date;
      rows ← renderRows tza st (S index) weekDates';
      Normal (row :: rows)
  end.

(** Lines 130-133 and 144-183: the rows of a render. *)
Definition render (tza : Z) (st : ViewState) : Completion (list Row) :=
  renderRows tza st 0 (weekDatesOf tza (selectedDate st)).


(** The date part of the ISO string of a time value: [YYYY-MM-DD], with an
    expanded year outside 0 to 9999. *)
Definition isoDate (t : Z) : JsString :=
  yearString (YearFromTime t) ++ js "-" ++ digits 2 (MonthFromTime t + 1)
  ++ js "-" ++ digits 2 (DateFromTime t).

(** The day number of the first date of the week window of the reference
    date that names day [n], counted in UTC: the window is computed from
    the day after the local day of midnight UTC of day [n]. *)
Definition weekStart (tza n : Z) : Z :=
  let localDay := if 0 <=? tza then n else n - 1 in
  n + 1 - daysSinceMonday ((localDay + 1 + 4) mod 7).


(** * Properties of the calendar *)

Ltac set_tauto := set_unfold; intuition (subst; eauto).

Ltac zdiv := Z.div_mod_to_equations; lia.

Ltac ltb_cases :=
  repeat match goal with
         | |- context [?a <? ?b] => destruct (Z.ltb_spec a b)
         | |- context [?a <=? ?b] => destruct (Z.leb_spec a b)
         | |- context [?a =? ?b] => destruct (Z.eqb_spec a b)
         end.

Ltac month_cases m :=
  let H := fresh in
  assert (m = 0 \/ m = 1 \/ m = 2 \/ m = 3 \/ m = 4 \/ m = 5
          \/ m = 6 \/ m = 7 \/ m = 8 \/ m = 9 \/ m = 10 \/ m = 11) as H by lia;
  destruct H as [->|[->|[->|[->|[->|[->|[->|[->|[->|[->|[->| ->]]]]]]]]]]].

Lemma DayFromYear_succ y : DayFromYear (y + 1) = DayFromYear y + DaysInYear y.
Proof.
  unfold DayFromYear, DaysInYear, isLeap.
  destruct (y mod 4 =? 0) eqn:E4; destruct (y mod 100 =? 0) eqn:E100;
    destruct (y mod 400 =? 0) eqn:E400; simpl;
    rewrite ?Z.eqb_eq, ?Z.eqb_neq in *; zdiv.
Qed.

(** [YearFromDay n] is the year that contains day [n]. *)
Lemma YearFromDay_spec n :
  DayFromYear (YearFromDay n) <= n < DayFromYear (YearFromDay n + 1).
Proof.
  unfold YearFromDay.
  destruct (Z.ltb_spec n (DayFromYear (1970 + 400 * n / 146097))) as [H1|H1].
  - replace (1970 + 400 * n / 146097 - 1 + 1) with (1970 + 400 * n / 146097) by lia.
    split; [|lia]. unfold DayFromYear in *. zdiv.
  - destruct (Z.leb_spec (DayFromYear (1970 + 400 * n / 146097 + 1)) n) as [H2|H2].
    + split; [lia|]. unfold DayFromYear in *. zdiv.
    + lia.
Qed.

Lemma DayFromYear_mono y y' : y <= y' -> DayFromYear y <= DayFromYear y'.
Proof. unfold DayFromYear. intros. zdiv. Qed.

(** The year of a day is determined by the two bounds. *)
Lemma YearFromDay_unique n y :
  DayFromYear y <= n < DayFromYear (y + 1) -> YearFromDay n = y.
Proof.
  intros Hy. pose proof (YearFromDay_spec n) as Hs.
  destruct (Z.lt_trichotomy (YearFromDay n) y) as [Hlt|[Heq|Hgt]]; [|done|].
  - pose proof (DayFromYear_mono (YearFromDay n + 1) y ltac:(lia)). lia.
  - pose proof (DayFromYear_mono (y + 1) (YearFromDay n) ltac:(lia)). lia.
Qed.

Lemma DayWithinYear_range t :
  0 <= DayWithinYear t < DaysInYear (YearFromTime t).
Proof.
  unfold DayWithinYear, YearFromTime.
  pose proof (YearFromDay_spec (Day t)) as Hs.
  rewrite DayFromYear_succ in Hs. lia.
Qed.

Lemma leapDays_cases y : leapDays y = 0 \/ leapDays y = 1.
Proof. unfold leapDays. destruct (isLeap y); auto. Qed.

Lemma DaysInYear_leapDays y : DaysInYear y = 365 + leapDays y.
Proof. unfold DaysInYear, leapDays. destruct (isLeap y); lia. Qed.

Lemma monthOfDay_range leap d : 0 <= monthOfDay leap d <= 11.
Proof. unfold monthOfDay. repeat case_match; lia. Qed.

Lemma MonthFromTime_range t : 0 <= MonthFromTime t <= 11.
Proof. apply monthOfDay_range. Qed.

(** The date number counts from the start of the month it lies in. *)
Lemma DateFromTime_range t :
  1 <= DateFromTime t <= DaysInMonth (YearFromTime t) (MonthFromTime t).
Proof.
  pose proof (DayWithinYear_range t) as Hd.
  rewrite DaysInYear_leapDays in Hd.
  unfold DateFromTime, MonthFromTime, InLeapYear, DaysInMonth in *.
  destruct (leapDays_cases (YearFromTime t)) as [E|E]; rewrite E in *;
    unfold monthOfDay; ltb_cases; simpl; lia.
Qed.

(** [MakeDay] on the fields of a time value, with the date moved by [k]
    days, is the day number moved by [k]. *)
Lemma MakeDay_fields t k :
  MakeDay (YearFromTime t) (MonthFromTime t) (DateFromTime t + k) = Day t + k.
Proof.
  pose proof (MonthFromTime_range t) as Hm.
  unfold MakeDay.
  rewrite Z.div_small, Z.mod_small, Z.add_0_r by lia.
  unfold DateFromTime, DayWithinYear, InLeapYear. lia.
Qed.

(** [MakeDay] finds the day ECMA-262 asks for: the first day of month
    [m mod 12] of year [y + m / 12]. *)
Lemma MakeDay_first y m :
  let t := MakeDay y m 1 * msPerDay in
  YearFromTime t = y + m / 12 /\ MonthFromTime t = m mod 12 /\ DateFromTime t = 1.
Proof.
  intros t.
  assert (Hm : 0 <= m mod 12 <= 11) by zdiv.
  set (ym := y + m / 12). set (mn := m mod 12) in *.
  assert (Hday : Day t = DayFromYear ym + monthStart (leapDays ym) mn).
  { subst t. unfold MakeDay. fold ym mn. unfold Day, msPerDay. zdiv. }
  assert (Hstart : 0 <= monthStart (leapDays ym) mn < 365 + leapDays ym).
  { destruct (leapDays_cases ym) as [-> | ->]; unfold monthStart;
      repeat case_match; lia. }
  assert (Hy : YearFromTime t = ym).
  { unfold YearFromTime. apply YearFromDay_unique.
    rewrite DayFromYear_succ, DaysInYear_leapDays. lia. }
  assert (Hmonth : MonthFromTime t = mn).
  { unfold MonthFromTime, InLeapYear, DayWithinYear. rewrite Hy, Hday.
    replace (DayFromYear ym + monthStart (leapDays ym) mn - DayFromYear ym)
      with (monthStart (leapDays ym) mn) by lia.
    assert (Hcases : mn = 0 \/ mn = 1 \/ mn = 2 \/ mn = 3 \/ mn = 4 \/ mn = 5
                     \/ mn = 6 \/ mn = 7 \/ mn = 8 \/ mn = 9 \/ mn = 10 \/ mn = 11)
      by lia.
    destruct (leapDays_cases ym) as [-> | ->];
      repeat (destruct Hcases as [-> | Hcases]; [reflexivity|]);
      by rewrite Hcases. }
  split_and!; [done|done|].
  unfold DateFromTime. rewrite Hmonth.
  unfold InLeapYear, DayWithinYear. rewrite Hy, Hday. lia.
Qed.

Lemma TimeClip_Some x : Z.abs x <= maxTime -> TimeClip x = Some x.
Proof. unfold TimeClip. intros. by rewrite (proj2 (Z.leb_le _ _)). Qed.

Lemma TimeClip_inv x y : TimeClip x = Some y -> y = x /\ Z.abs x <= maxTime.
Proof.
  unfold TimeClip. destruct (Z.leb_spec (Z.abs x) maxTime); naive_solver.
Qed.

Lemma newDate_number_TimeClip x : newDate_number (TimeClip x) = TimeClip x.
Proof.
  unfold newDate_number. destruct (TimeClip x) as [y|] eqn:E; [|done].
  apply TimeClip_inv in E as [-> ?]. simpl. by apply TimeClip_Some.
Qed.

Section LocalTimeFacts.

Variable tza : Z.

(** [d.setDate(d.getDate() + k)] moves a date by [k] days. *)
Lemma setDate_getDate t k :
  setDate tza (Some t) ((λ d, d + k) <$> getDate tza (Some t))
  = TimeClip (t + k * msPerDay).
Proof.
  simpl. rewrite MakeDay_fields. f_equal.
  unfold MakeDate, UTC, LocalTime, Day, TimeWithinDay, msPerDay. zdiv.
Qed.

Lemma Day_LocalTime_add t k :
  Day (LocalTime tza (t + k * msPerDay)) = Day (LocalTime tza t) + k.
Proof. unfold Day, LocalTime, msPerDay. zdiv. Qed.

End LocalTimeFacts.

(** * Properties of the date-only strings *)

Lemma digitValue_range c v : digitValue c = Some v -> 0 <= v <= 9.
Proof.
  unfold digitValue. case_match eqn:E; [|done]. intros [= <-].
  apply andb_true_iff in E as [?%N.leb_le ?%N.leb_le]. lia.
Qed.

(** [readDigits] consumes [w] code units and appends [w] decimal digits
    to the value read so far. *)
Lemma readDigits_spec w : forall acc s v r,
  readDigits w acc s = Some (v, r) ->
  acc * 10 ^ Z.of_nat w <= v < (acc + 1) * 10 ^ Z.of_nat w
  /\ length s = (w + length r)%nat.
Proof.
  induction w as [|w IH]; intros acc s v r H; simpl in H.
  - injection H as <- <-. simpl. lia.
  - destruct s as [|c s]; [done|].
    destruct (digitValue c) as [d|] eqn:Hd; [|done]. simpl in H.
    apply digitValue_range in Hd. apply IH in H as [Hv Hl].
    split; [|simpl; lia].
    rewrite Nat2Z.inj_succ, Z.pow_succ_r by lia.
    assert (0 < 10 ^ Z.of_nat w) by (apply Z.pow_pos_nonneg; lia). nia.
Qed.

Lemma readYear_spec s y r :
  readYear s = Some (y, r) ->
  (0 <= y <= 9999 /\ length s = (4 + length r)%nat)
  \/ (-999999 <= y <= 999999 /\ length s = (7 + length r)%nat).
Proof.
  unfold readYear. intros H.
  assert (Hsix : forall s' v r', readDigits 6 0 s' = Some (v, r') ->
            0 <= v <= 999999 /\ length s' = (6 + length r')%nat).
  { intros s' v r' H'. apply readDigits_spec in H' as [Hv Hl].
    change (10 ^ Z.of_nat 6) with 1000000 in Hv. lia. }
  assert (Hfour : readDigits 4 0 s = Some (y, r) ->
            0 <= y <= 9999 /\ length s = (4 + length r)%nat).
  { intros H'. apply readDigits_spec in H' as [Hv Hl].
    change (10 ^ Z.of_nat 4) with 10000 in Hv. lia. }
  destruct s as [|c s']; [done|].
  destruct (c =? 43)%N.
  { right. apply Hsix in H. simpl. lia. }
  destruct (c =? 45)%N; [|by left; apply Hfour].
  right. destruct (readDigits 6 0 s') as [[v r']|] eqn:E; [|done].
  simpl in H. apply Hsix in E. destruct (v =? 0); [done|].
  injection H as <- <-. simpl. lia.
Qed.

Lemma expect_spec c s r : expect c s = Some r -> s = c :: r.
Proof.
  destruct s as [|c' s]; simpl; [done|].
  destruct (N.eqb_spec c c'); naive_solver.
Qed.

(** A date-only string has 10 code units and a year from 0 to 9999, or 13
    code units and an expanded year. *)
Lemma readDateOnly_spec s y m d :
  readDateOnly s = Some (y, m, d) ->
  0 <= m <= 99 /\ 0 <= d <= 99
  /\ ((0 <= y <= 9999 /\ length s = 10%nat)
      \/ (-999999 <= y <= 999999 /\ length s = 13%nat)).
Proof.
  unfold readDateOnly. intros H.
  destruct (readYear s) as [[y' s1]|] eqn:Ey; [|done]. cbn -[readDigits] in H.
  destruct (expect 45 s1) as [s2|] eqn:E1; [|done]. cbn -[readDigits] in H.
  destruct (readDigits 2 0 s2) as [[m' s3]|] eqn:Em; [|done]. cbn -[readDigits] in H.
  destruct (expect 45 s3) as [s4|] eqn:E2; [|done]. cbn -[readDigits] in H.
  destruct (readDigits 2 0 s4) as [[d' s5]|] eqn:Ed; [|done]. cbn -[readDigits] in H.
  destruct s5; [|done]. injection H as -> -> ->.
  apply expect_spec in E1 as ->. apply expect_spec in E2 as ->.
  apply readDigits_spec in Em as [Hm Hlm]. apply readDigits_spec in Ed as [Hd Hld].
  change (10 ^ Z.of_nat 2) with 100 in *. simpl in *.
  apply readYear_spec in Ey. simpl in Ey. lia.
Qed.

Lemma parseDateOnly_inv s t :
  parseDateOnly s = Some t ->
  exists y m d,
    readDateOnly s = Some (y, m, d)
    /\ 1 <= m <= 12 /\ 1 <= d <= DaysInMonth y (m - 1)
    /\ t = MakeDay y (m - 1) d * msPerDay /\ Z.abs t <= maxTime.
Proof.
  unfold parseDateOnly. intros H.
  destruct (readDateOnly s) as [[[y m] d]|] eqn:E; [|done]. simpl in H.
  case_match eqn:Hv; [|done].
  apply TimeClip_inv in H as [-> Hc].
  repeat (apply andb_true_iff in Hv as [Hv ?]).
  exists y, m, d. unfold MakeDate, MakeTime in *.
  rewrite Z.add_0_r in *. repeat split; try done; lia.
Qed.

Lemma DaysInMonth_le y m : DaysInMonth y m <= 31.
Proof.
  unfold DaysInMonth. destruct (leapDays_cases y) as [-> | ->]; repeat case_match; lia.
Qed.

Lemma monthStart_range leap m : 0 <= leap <= 1 -> 0 <= monthStart leap m <= 335.
Proof. unfold monthStart. intros. repeat case_match; lia. Qed.

(** A [YYYY-MM-DD] string denotes midnight UTC of a day far inside the
    range of time values. *)
Lemma parseDateOnly_YYYYMMDD s t :
  length s = 10%nat -> parseDateOnly s = Some t ->
  exists n, t = n * msPerDay /\ -719528 <= n <= 2932897.
Proof.
  intros Hl (y & m & d & Hr & Hm & Hd & -> & _)%parseDateOnly_inv.
  apply readDateOnly_spec in Hr as (_ & _ & [[Hy _]|[_ ?]]); [|lia].
  eexists; split; [done|].
  pose proof (DaysInMonth_le y (m - 1)).
  unfold MakeDay. rewrite Z.div_small, Z.mod_small, Z.add_0_r by lia.
  pose proof (monthStart_range (leapDays y) (m - 1)) as Hs.
  destruct (leapDays_cases y) as [E|E]; rewrite E in *;
    unfold DayFromYear; zdiv.
Qed.

(** * The week window *)


Section WeekWindow.

Variable tza : Z.

Lemma setDate_relative t k :
  setDate tza (Some t) (Some (DateFromTime (LocalTime tza t) + k))
  = TimeClip (t + k * msPerDay).
Proof. apply (setDate_getDate tza t k). Qed.

Lemma correctedDateOf_eq s t :
  newDate_string s = Some t ->
  correctedDateOf tza s = TimeClip (t + 1 * msPerDay).
Proof. unfold correctedDateOf. intros ->. apply setDate_getDate. Qed.

Lemma getStartOfWeek_eq c :
  getStartOfWeek tza (Some c)
  = (TimeClip (c - daysSinceMonday (WeekDay (LocalTime tza c)) * msPerDay),
     TimeClip (c - daysSinceMonday (WeekDay (LocalTime tza c)) * msPerDay)).
Proof.
  unfold getStartOfWeek. cbn -[setDate daysSinceMonday].
  replace (DateFromTime (LocalTime tza c) - daysSinceMonday (WeekDay (LocalTime tza c)))
    with (DateFromTime (LocalTime tza c) + - daysSinceMonday (WeekDay (LocalTime tza c)))
    by lia.
  rewrite setDate_relative, newDate_number_TimeClip.
  do 2 f_equal; lia.
Qed.

Lemma generateWeekDates_eq m :
  generateWeekDates tza (Some m) = (λ i, TimeClip (m + i * msPerDay)) <$> seqZ 0 7.
Proof.
  unfold generateWeekDates, newDate_copy.
  apply list_fmap_ext. intros _ i _. apply setDate_getDate.
Qed.

Lemma getEndOfWeek_eq m :
  getEndOfWeek tza (Some m) = TimeClip (m + 6 * msPerDay).
Proof. apply setDate_getDate. Qed.


Lemma Day_midnight n : Day (LocalTime 0 (n * msPerDay)) = n.
Proof. unfold Day, LocalTime, msPerDay. zdiv. Qed.

(** The local fields of a date are the UTC fields of the midnight that
    starts its local calendar day. *)
Lemma fields_localDay t :
  let t' := Day (LocalTime tza t) * msPerDay in
  getFullYear tza (Some t) = getFullYear 0 (Some t')
  /\ getMonth tza (Some t) = getMonth 0 (Some t')
  /\ getDate tza (Some t) = getDate 0 (Some t').
Proof.
  intros t'. subst t'.
  unfold getFullYear, getMonth, getDate. cbn [mbind option_bind].
  unfold DateFromTime, MonthFromTime, InLeapYear, DayWithinYear, YearFromTime.
  by rewrite Day_midnight.
Qed.

(** The formatted date depends on the local calendar day only. *)
Lemma formatDateToYYYYMMDD_localDay t :
  formatDateToYYYYMMDD tza (Some t)
  = formatDateToYYYYMMDD 0 (Some (Day (LocalTime tza t) * msPerDay)).
Proof.
  unfold formatDateToYYYYMMDD.
  destruct (fields_localDay t) as (-> & -> & ->). done.
Qed.

End WeekWindow.

(** * The week window of a reference date *)

Lemma WeekDay_range t : 0 <= WeekDay t <= 6.
Proof. unfold WeekDay. zdiv. Qed.

Lemma daysSinceMonday_range t : 0 <= daysSinceMonday (WeekDay t) <= 6.
Proof.
  pose proof (WeekDay_range t). unfold daysSinceMonday.
  destruct (Z.eqb_spec (WeekDay t) 0); lia.
Qed.

(** The dates the component computes from a [YYYY-MM-DD] reference date:
    the corrected date [c], and the week from the Monday [m]. *)
Lemma week_of_reference_date tza s t :
  length s = 10%nat -> newDate_string s = Some t ->
  let c := t + 1 * msPerDay in
  let m := c - daysSinceMonday (WeekDay (LocalTime tza c)) * msPerDay in
  correctedDateOf tza s = Some c
  /\ startOfWeekOf tza s = Some m
  /\ weekDatesOf tza s = (λ i, Some (m + i * msPerDay)) <$> seqZ 0 7
  /\ getEndOfWeek tza (startOfWeekOf tza s) = Some (m + 6 * msPerDay).
Proof.
  intros Hl Ht c m.
  destruct (parseDateOnly_YYYYMMDD s t Hl Ht) as (n & Hn & Hr).
  pose proof (daysSinceMonday_range (LocalTime tza c)) as Hd.
  assert (Hc : correctedDateOf tza s = Some c).
  { rewrite (correctedDateOf_eq tza s t Ht). apply TimeClip_Some.
    unfold msPerDay, maxTime in *. lia. }
  assert (Hm : startOfWeekOf tza s = Some m).
  { unfold startOfWeekOf. rewrite Hc, getStartOfWeek_eq. cbn [fst].
    apply TimeClip_Some. subst m c. unfold msPerDay, maxTime in *. lia. }
  split_and!; [done|done| |].
  - unfold weekDatesOf. rewrite Hm, generateWeekDates_eq.
    apply list_fmap_ext. intros _ i Hi%list_elem_of_lookup_2.
    apply elem_of_seqZ in Hi. apply TimeClip_Some.
    subst m c. unfold msPerDay, maxTime in *. lia.
  - rewrite Hm, getEndOfWeek_eq. apply TimeClip_Some.
    subst m c. unfold msPerDay, maxTime in *. lia.
Qed.



(** * The handlers *)

Lemma trimStart_nil s : trimStart s = [] <-> blank s.
Proof.
  unfold blank. induction s as [|c s IH]; simpl.
  - split; [constructor | done].
  - destruct (isWhiteSpace c) eqn:E.
    + rewrite IH. split; [by constructor | by inversion 1].
    + split; [done | inversion 1; congruence].
Qed.

Lemma trimStart_blank s : blank (trimStart s) <-> blank s.
Proof.
  unfold blank. induction s as [|c s IH]; simpl; [done|].
  destruct (isWhiteSpace c) eqn:E.
  - rewrite IH. split; [by constructor | by inversion 1].
  - done.
Qed.

(** [trim] leaves nothing exactly of the blank strings. *)
Lemma trim_nil s : trim s = [] <-> blank s.
Proof.
  unfold trim.
  transitivity (trimStart (reverse (trimStart s)) = []).
  { split; [intros H%(f_equal reverse) | intros ->]; [|done].
    by rewrite reverse_involutive in H. }
  rewrite trimStart_nil, <- (trimStart_blank s).
  unfold blank. apply Forall_reverse.
Qed.

Lemma truthy_trim s : truthy (trim s) = false <-> blank s.
Proof. rewrite <- trim_nil. by destruct (trim s). Qed.

(** What React does with the trace of each handler. *)

Lemma run_add_blank tza api newTask date :
  blank newTask -> run (handleAddTask tza api newTask date) = (Normal (), []).
Proof.
  intros Hb%truthy_trim. unfold run, handleAddTask. by rewrite Hb.
Qed.

Lemma run_add_fulfilled tza api newTask date d T :
  ¬ blank newTask ->
  formatDateToYYYYMMDD tza date = Normal d ->
  addTask api [] {| data_name := newTask; data_completed := false; data_date := d |}
  = Fulfilled T ->
  run (handleAddTask tza api newTask date)
  = (Normal (),
     [Remote (AddTask {| data_name := newTask; data_completed := false;
                         data_date := d |});
      SetTasksByDate (AddUpdater d T);
      SetNewTask []]).
Proof.
  intros Hb Hd HT. unfold run, handleAddTask.
  destruct (truthy (trim newTask)) eqn:E; [|by apply truthy_trim in E].
  rewrite Hd. cbv [lift mbind Handler_bind tryCatch await emit requests omap
                   list_omap app]. by rewrite HT.
Qed.

Lemma run_add_rejected tza api newTask date d e :
  ¬ blank newTask ->
  formatDateToYYYYMMDD tza date = Normal d ->
  addTask api [] {| data_name := newTask; data_completed := false; data_date := d |}
  = Rejected e ->
  run (handleAddTask tza api newTask date)
  = (Normal (),
     [Remote (AddTask {| data_name := newTask; data_completed := false;
                         data_date := d |});
      ConsoleError (js "Error adding task:") e]).
Proof.
  intros Hb Hd HT. unfold run, handleAddTask.
  destruct (truthy (trim newTask)) eqn:E; [|by apply truthy_trim in E].
  rewrite Hd. cbv [lift mbind Handler_bind tryCatch await emit requests omap
                   list_omap app]. by rewrite HT.
Qed.

Lemma run_toggle api taskId taskDate :
  run (handleToggleCompletion api taskId taskDate)
  = (Normal (),
     [Remote (ToggleTaskCompletion taskId);
      match toggleTaskCompletion api [] taskId with
      | Fulfilled updatedTask =>
          SetTasksByDate (ToggleUpdater taskDate taskId updatedTask)
      | Rejected e => ConsoleError (js "Error toggling task completion:") e
      end]).
Proof.
  unfold run, handleToggleCompletion.
  cbv [lift mbind Handler_bind tryCatch await emit requests omap list_omap app].
  by destruct (toggleTaskCompletion api [] taskId).
Qed.

Lemma run_delete api taskId taskDate :
  run (handleDeleteTask api taskId taskDate)
  = (Normal (),
     [Remote (DeleteTask taskId);
      match deleteTask api [] taskId with
      | Fulfilled _ => SetTasksByDate (DeleteUpdater taskDate taskId)
      | Rejected e => ConsoleError (js "Error deleting task:") e
      end]).
Proof.
  unfold run, handleDeleteTask.
  cbv [lift mbind Handler_bind tryCatch await emit requests omap list_omap app].
  by destruct (deleteTask api [] taskId).
Qed.

Lemma after_add_fulfilled tza api st date d T :
  ¬ blank (newTask st) ->
  formatDateToYYYYMMDD tza date = Normal d ->
  addTask api [] {| data_name := newTask st; data_completed := false;
                    data_date := d |} = Fulfilled T ->
  after st (handleAddTask tza api (newTask st) date)
  = Normal {| selectedDate := selectedDate st; newTask := [];
              tasksByDate :=
                <[d := default [] (tasksByDate st !! d) ++ [T]]> (tasksByDate st) |}.
Proof.
  intros Hb Hd HT. unfold after.
  by rewrite (run_add_fulfilled _ _ _ _ d T Hb Hd HT).
Qed.

(** C4. With a name that is empty or white space only, [handleAddTask]
    returns without any effect: no remote call is made, nothing is logged,
    and the state is left as it was. *)
Theorem add_blank_name_no_effect tza api st date :
  blank (newTask st) ->
  run (handleAddTask tza api (newTask st) date) = (Normal (), [])
  /\ requests (run (handleAddTask tza api (newTask st) date)).2 = []
  /\ after st (handleAddTask tza api (newTask st) date) = Normal st.
Proof.
  intros Hb. unfold after. rewrite (run_add_blank _ _ _ _ Hb). done.
Qed.

(** C5. After a successful add of a non-blank name, the list under the
    formatted date is the old list, or the empty list when there was none,
    with the returned task appended; every other date keeps its list. *)
Theorem add_appends_task tza api st date d T :
  ¬ blank (newTask st) ->
  formatDateToYYYYMMDD tza date = Normal d ->
  addTask api [] {| data_name := newTask st; data_completed := false;
                    data_date := d |} = Fulfilled T ->
  exists st',
    after st (handleAddTask tza api (newTask st) date) = Normal st'
    /\ tasksByDate st' !! d = Some (default [] (tasksByDate st !! d) ++ [T])
    /\ (forall d', d' ≠ d -> tasksByDate st' !! d' = tasksByDate st !! d').
Proof.
  intros Hb Hd HT. rewrite (after_add_fulfilled _ _ _ _ d T Hb Hd HT).
  eexists. split; [reflexivity|]. cbn. split.
  - apply lookup_insert_eq.
  - intros d' Hne. by apply lookup_insert_ne.
Qed.

Lemma add_appends_task_witness :
  exists st',
    after (sampleState (js "Buy milk") ∅)
      (handleAddTask 0 (sampleService true) (js "Buy milk")
         (newDate_string (js "2024-06-12"))) = Normal st'
    /\ tasksByDate st' !! js "2024-06-12"
       = Some [{| task_id := 7; task_name := js "Buy milk";
                  task_completed := false; task_date := js "2024-06-12" |}].
Proof.
  destruct (add_appends_task 0 (sampleService true)
              (sampleState (js "Buy milk") ∅)
              (newDate_string (js "2024-06-12")) (js "2024-06-12")
              {| task_id := 7; task_name := js "Buy milk";
                 task_completed := false; task_date := js "2024-06-12" |})
    as (st' & H1 & H2 & _).
  - intros H. apply Forall_cons_1 in H as [H _]. vm_compute in H. discriminate.
  - vm_compute. reflexivity.
  - reflexivity.
  - exists st'. split; [exact H1 | exact H2].
Defined.

(** C6. After a successful delete under a date that has a list, no task
    of that list has the deleted identifier any more, the tasks that remain
    are the other ones in their old order, and every other date keeps its
    list. *)
Theorem delete_removes_task api st taskId d tasks :
  tasksByDate st !! d = Some tasks ->
  deleteTask api [] taskId = Fulfilled () ->
  exists st' tasks',
    after st (handleDeleteTask api taskId d) = Normal st'
    /\ tasksByDate st' !! d = Some tasks'
    /\ tasks' = filter (λ task, task_id task ≠ taskId) tasks
    /\ Forall (λ task, task_id task ≠ taskId) tasks'
    /\ tasks' `sublist_of` tasks
    /\ (forall task, task ∈ tasks -> task_id task ≠ taskId -> task ∈ tasks')
    /\ (forall d', d' ≠ d -> tasksByDate st' !! d' = tasksByDate st !! d').
Proof.
  intros Hd Hok. unfold after. rewrite run_delete, Hok. cbn. rewrite Hd. cbn.
  eexists _, _. split; [reflexivity|]. cbn. split_and!.
  - apply lookup_insert_eq.
  - reflexivity.
  - apply Forall_forall. by intros task [? _]%list_elem_of_filter.
  - apply sublist_filter.
  - intros task Hin Hne. by apply list_elem_of_filter.
  - intros d' Hne. by apply lookup_insert_ne.
Qed.

Lemma delete_removes_task_witness :
  exists st',
    after (sampleState [] {[ js "2024-06-12" := [sampleTask 1; sampleTask 2; sampleTask 3] ]})
      (handleDeleteTask (sampleService true) 2 (js "2024-06-12")) = Normal st'
    /\ tasksByDate st' !! js "2024-06-12" = Some [sampleTask 1; sampleTask 3].
Proof.
  destruct (delete_removes_task (sampleService true)
              (sampleState [] {[ js "2024-06-12" := [sampleTask 1; sampleTask 2; sampleTask 3] ]})
              2 (js "2024-06-12") [sampleTask 1; sampleTask 2; sampleTask 3])
    as (st' & tasks' & H1 & H2 & H3 & _).
  - apply lookup_singleton_eq.
  - reflexivity.
  - exists st'. split; [exact H1|]. rewrite H2, H3. reflexivity.
Defined.

Lemma add_blank_name_no_effect_witness :
  run (handleAddTask 0 (sampleService true) (js "  ")
         (newDate_string (js "2024-06-12"))) = (Normal (), [])
  /\ after (sampleState (js "  ") ∅)
       (handleAddTask 0 (sampleService true) (js "  ")
          (newDate_string (js "2024-06-12")))
     = Normal (sampleState (js "  ") ∅).
Proof.
  destruct (add_blank_name_no_effect 0 (sampleService true)
              (sampleState (js "  ") ∅) (newDate_string (js "2024-06-12")))
    as (H1 & _ & H2).
  - repeat constructor.
  - split; [exact H1 | exact H2].
Defined.

(** C7. When the remote call of add, toggle or delete is rejected, the
    handler catches the rejection and completes normally, and the state,
    the pending input included, is the state before the call. *)
Theorem remote_failure_is_swallowed tza api st :
  (forall date d e,
     formatDateToYYYYMMDD tza date = Normal d ->
     addTask api [] {| data_name := newTask st; data_completed := false;
                       data_date := d |} = Rejected e ->
     (run (handleAddTask tza api (newTask st) date)).1 = Normal ()
     /\ after st (handleAddTask tza api (newTask st) date) = Normal st)
  /\ (forall taskId taskDate e,
        toggleTaskCompletion api [] taskId = Rejected e ->
        (run (handleToggleCompletion api taskId taskDate)).1 = Normal ()
        /\ after st (handleToggleCompletion api taskId taskDate) = Normal st)
  /\ (forall taskId taskDate e,
        deleteTask api [] taskId = Rejected e ->
        (run (handleDeleteTask api taskId taskDate)).1 = Normal ()
        /\ after st (handleDeleteTask api taskId taskDate) = Normal st).
Proof.
  split_and!.
  - intros date d e Hd He. unfold after.
    destruct (decide (blank (newTask st))) as [Hb|Hb].
    + by rewrite (run_add_blank _ _ _ _ Hb).
    + by rewrite (run_add_rejected _ _ _ _ d e Hb Hd He).
  - intros taskId taskDate e He. unfold after. by rewrite run_toggle, He.
  - intros taskId taskDate e He. unfold after. by rewrite run_delete, He.
Qed.

Lemma remote_failure_is_swallowed_witness :
  let st := sampleState (js "Buy milk") {[ js "2024-06-12" := [sampleTask 1] ]} in
  after st (handleAddTask 0 (sampleService false) (js "Buy milk")
              (newDate_string (js "2024-06-12"))) = Normal st
  /\ after st (handleToggleCompletion (sampleService false) 1 (js "2024-06-12"))
     = Normal st
  /\ after st (handleDeleteTask (sampleService false) 1 (js "2024-06-12"))
     = Normal st.
Proof.
  intros st.
  destruct (remote_failure_is_swallowed 0 (sampleService false) st)
    as (Hadd & Htoggle & Hdelete).
  split_and!.
  - apply (Hadd (newDate_string (js "2024-06-12")) (js "2024-06-12")
             (Reason (js "Network Error"))); [vm_compute|]; reflexivity.
  - apply (Htoggle 1 (js "2024-06-12") (Reason (js "Network Error"))). reflexivity.
  - apply (Hdelete 1 (js "2024-06-12") (Reason (js "Network Error"))). reflexivity.
Defined.

(** C10. The updates of toggle and delete are defined exactly when the
    state has a list under the date they are given. Under a date without a
    list, a successful remote toggle or delete makes the update throw a
    TypeError instead of leaving the state as it was, while a successful
    add starts from the empty list. *)
Theorem toggle_delete_need_entry tza api st taskId d :
  tasksByDate st !! d = None ->
  (forall T,
     toggleTaskCompletion api [] taskId = Fulfilled T ->
     after st (handleToggleCompletion api taskId d) = Throw TypeError)
  /\ (deleteTask api [] taskId = Fulfilled () ->
      after st (handleDeleteTask api taskId d) = Throw TypeError)
  /\ (forall date T,
        ¬ blank (newTask st) ->
        formatDateToYYYYMMDD tza date = Normal d ->
        addTask api [] {| data_name := newTask st; data_completed := false;
                          data_date := d |} = Fulfilled T ->
        exists st',
          after st (handleAddTask tza api (newTask st) date) = Normal st'
          /\ tasksByDate st' !! d = Some [T])
  /\ (forall (m : TasksByDate) d' T,
        (exists m', runUpdate (ToggleUpdater d' taskId T) m = Normal m')
        <-> is_Some (m !! d'))
  /\ (forall (m : TasksByDate) d',
        (exists m', runUpdate (DeleteUpdater d' taskId) m = Normal m')
        <-> is_Some (m !! d'))
  /\ (forall (m : TasksByDate) d' T,
        exists m', runUpdate (AddUpdater d' T) m = Normal m').
Proof.
  intros Hd. split_and!.
  - intros T HT. unfold after. rewrite run_toggle, HT. cbn. by rewrite Hd.
  - intros HT. unfold after. rewrite run_delete, HT. cbn. by rewrite Hd.
  - intros date T Hb Hf HT. rewrite (after_add_fulfilled _ _ _ _ d T Hb Hf HT).
    eexists. split; [reflexivity|]. cbn. by rewrite lookup_insert_eq, Hd.
  - intros m d' T. cbn. destruct (m !! d') as [l|]; split.
    + by eexists.
    + by eexists.
    + by intros [? ?].
    + by intros [? ?].
  - intros m d'. cbn. destruct (m !! d') as [l|]; split.
    + by eexists.
    + by eexists.
    + by intros [? ?].
    + by intros [? ?].
  - intros m d' T. by eexists.
Qed.

Lemma toggle_delete_need_entry_witness :
  let st := sampleState (js "Buy milk") ∅ in
  after st (handleToggleCompletion (sampleService true) 1 (js "2024-06-12"))
  = Throw TypeError
  /\ after st (handleDeleteTask (sampleService true) 1 (js "2024-06-12"))
     = Throw TypeError.
Proof.
  intros st.
  destruct (toggle_delete_need_entry 0 (sampleService true) st 1 (js "2024-06-12"))
    as (Htoggle & Hdelete & _).
  - apply lookup_empty.
  - split.
    + by eapply Htoggle.
    + by apply Hdelete.
Defined.

(** * The week fetch *)

Lemma requests_app tr1 tr2 : requests (tr1 ++ tr2) = requests tr1 ++ requests tr2.
Proof. apply omap_app. Qed.

Lemma requests_remote tr r : requests (tr ++ [Remote r]) = requests tr ++ [r].
Proof. by rewrite requests_app. Qed.

Lemma requests_console tr msg e : requests (tr ++ [ConsoleError msg e]) = requests tr.
Proof. rewrite requests_app. apply app_nil_r. Qed.

Lemma fetchLoop_spec tza api weekDates keys :
  Forall2 (λ date key, formatDateToYYYYMMDD tza date = Normal key) weekDates keys ->
  forall acc trace,
  exists log,
    fetchLoop tza api weekDates acc trace
    = (Normal (fetchedTasks api (requests trace) keys acc), trace ++ log)
    /\ requests log = GetTasksByDate <$> keys
    /\ Forall (λ e, ¬ isUpdate e) log.
Proof.
  induction 1 as [|date key weekDates keys Hkey _ IH]; intros acc trace.
  - exists []. by rewrite app_nil_r.
  - cbn [fetchLoop fetchedTasks]. rewrite Hkey.
    cbv [lift mbind Handler_bind tryCatch await emit mret Handler_ret].
    destruct (getTasksByDate api (requests trace) key) as [tasks|e].
    + destruct (IH (<[key := tasks]> acc) (trace ++ [Remote (GetTasksByDate key)]))
        as (log & Hrun & Hreq & Hno).
      rewrite requests_remote in Hrun.
      exists (Remote (GetTasksByDate key) :: log).
      rewrite Hrun, <- app_assoc. split_and!; [done| |].
      * cbn. by rewrite <- Hreq.
      * constructor; [by intros []|done].
    + set (msg := js "Error fetching tasks for date " ++ key ++ js ":").
      destruct (IH acc ((trace ++ [Remote (GetTasksByDate key)])
                        ++ [ConsoleError msg e]))
        as (log & Hrun & Hreq & Hno).
      rewrite requests_console, requests_remote in Hrun.
      exists (Remote (GetTasksByDate key) :: ConsoleError msg e :: log).
      rewrite Hrun, <- !app_assoc. split_and!; [done| |].
      * cbn. by rewrite <- Hreq.
      * repeat constructor; [by intros []|by intros []|done].
Qed.

Lemma fetchedTasks_other api keys : forall history acc key,
  key ∉ keys -> fetchedTasks api history keys acc !! key = acc !! key.
Proof.
  induction keys as [|k keys IH]; intros history acc key Hnot; [done|].
  apply not_elem_of_cons in Hnot as [Hne Hnot]. cbn. rewrite IH by done.
  destruct (getTasksByDate api history k); [|done]. by apply lookup_insert_ne.
Qed.

Lemma fetchedTasks_lookup api keys : forall history acc i key,
  NoDup keys -> keys !! i = Some key ->
  fetchedTasks api history keys acc !! key
  = match getTasksByDate api (history ++ (GetTasksByDate <$> take i keys)) key with
    | Fulfilled tasks => Some tasks
    | Rejected _ => acc !! key
    end.
Proof.
  induction keys as [|k keys IH]; intros history acc i key Hnd Hi; [done|].
  apply NoDup_cons in Hnd as [Hk Hnd]. destruct i as [|i]; cbn in Hi.
  - injection Hi as ->. cbn. rewrite app_nil_r, fetchedTasks_other by done.
    destruct (getTasksByDate api history key); [|done]. apply lookup_insert_eq.
  - assert (key ≠ k) by (intros ->; by apply Hk, list_elem_of_lookup_2 with i).
    cbn. rewrite (IH _ _ i key Hnd Hi), <- app_assoc. cbn.
    destruct (getTasksByDate api (history ++ _ :: _) key); [done|].
    destruct (getTasksByDate api history k); [|done]. by apply lookup_insert_ne.
Qed.

(** C8. For a week of seven dates with seven distinct formatted dates and
    any way the seven requests settle: the requests are issued one per day
    in order, none twice; the only state update comes after all of them and
    replaces the whole [tasksByDate]; a day whose request is fulfilled maps
    to the tasks returned, a day whose request is rejected has no entry, and
    so has every other key, whatever the previous state held. *)
Theorem week_fetch_replaces_state tza api st weekDates keys :
  length weekDates = 7%nat ->
  Forall2 (λ date key, formatDateToYYYYMMDD tza date = Normal key) weekDates keys ->
  NoDup keys ->
  exists log m,
    run (fetchTasksForWeek tza api weekDates)
    = (Normal (), log ++ [SetTasksByDate (SetValue m)])
    /\ requests log = GetTasksByDate <$> keys
    /\ length (requests log) = 7%nat
    /\ Forall (λ e, ¬ isUpdate e) log
    /\ (forall i key,
          keys !! i = Some key ->
          m !! key
          = match getTasksByDate api (GetTasksByDate <$> take i keys) key with
            | Fulfilled tasks => Some tasks
            | Rejected _ => None
            end)
    /\ (forall key, key ∉ keys -> m !! key = None)
    /\ after st (fetchTasksForWeek tza api weekDates)
       = Normal {| selectedDate := selectedDate st; newTask := newTask st;
                   tasksByDate := m |}.
Proof.
  intros Hlen Hkeys Hnd.
  destruct (fetchLoop_spec tza api weekDates keys Hkeys ∅ []) as (log & Hrun & Hreq & Hno).
  cbn in Hrun.
  assert (Hfetch : run (fetchTasksForWeek tza api weekDates)
                   = (Normal (), log ++ [SetTasksByDate (SetValue (fetchedTasks api [] keys ∅))])).
  { unfold run, fetchTasksForWeek.
    cbv [mbind Handler_bind emit]. by rewrite Hrun. }
  exists log, (fetchedTasks api [] keys ∅). split_and!; try done.
  - rewrite Hreq, length_fmap, <- (Forall2_length _ _ _ Hkeys). done.
  - intros i key Hi. rewrite (fetchedTasks_lookup api keys [] ∅ i key Hnd Hi). done.
  - intros key Hnot. by rewrite fetchedTasks_other.
  - unfold after. rewrite Hfetch. cbn [snd].
    clear -Hno. revert st. induction Hno as [|e log He _ IH]; intros st; [done|].
    cbn [app applyEffects]. destruct e; try (by destruct He); apply IH.
Qed.

(** * The keys of the state *)

Lemma union_singleton_in (K : gset JsString) key : key ∈ K -> {[key]} ∪ K = K.
Proof. intros. apply subseteq_union_1_L. by apply singleton_subseteq_l. Qed.

Lemma dom_fetchedTasks_subseteq api keys : forall history acc,
  dom (fetchedTasks api history keys acc) ⊆ dom acc ∪ list_to_set keys.
Proof.
  induction keys as [|k keys IH]; intros history acc; cbn; [set_tauto|].
  etrans; [apply IH|].
  destruct (getTasksByDate api history k); [rewrite dom_insert|]; set_tauto.
Qed.

Lemma dom_fetchedTasks_fulfilled api keys : forall history acc,
  (forall i key, keys !! i = Some key ->
     exists tasks, getTasksByDate api (history ++ (GetTasksByDate <$> take i keys)) key
                   = Fulfilled tasks) ->
  dom (fetchedTasks api history keys acc) = dom acc ∪ list_to_set keys.
Proof.
  induction keys as [|k keys IH]; intros history acc Hall; cbn; [set_tauto|].
  destruct (Hall 0%nat k eq_refl) as [tasks Hk]. cbn in Hk.
  rewrite app_nil_r in Hk. rewrite Hk, IH.
  - rewrite dom_insert_L. set_tauto.
  - intros i key Hi. destruct (Hall (S i) key Hi) as [tasks' Hkey].
    exists tasks'. by rewrite <- app_assoc.
Qed.

Lemma after_fetch tza api st weekDates keys :
  Forall2 (λ date key, formatDateToYYYYMMDD tza date = Normal key) weekDates keys ->
  after st (fetchTasksForWeek tza api weekDates)
  = Normal {| selectedDate := selectedDate st; newTask := newTask st;
              tasksByDate := fetchedTasks api [] keys ∅ |}.
Proof.
  intros Hkeys.
  destruct (fetchLoop_spec tza api weekDates keys Hkeys ∅ []) as (log & Hrun & _ & Hno).
  unfold after, run, fetchTasksForWeek.
  cbv [mbind Handler_bind emit]. rewrite Hrun. cbn [snd app].
  clear -Hno. revert st. induction Hno as [|e log He _ IH]; intros st; [done|].
  cbn [app applyEffects]. destruct e; try (by destruct He); apply IH.
Qed.

Lemma react_keeps_keys tza api st weekDates keys a :
  Forall2 (λ date key, formatDateToYYYYMMDD tza date = Normal key) weekDates keys ->
  dom (tasksByDate st) = list_to_set keys ->
  inWeek weekDates keys a ->
  exists st', react tza api st a = Normal st'
              /\ dom (tasksByDate st') = list_to_set keys.
Proof.
  intros Hkeys Hdom Ha. unfold react.
  destruct a as [value|date|taskId d|taskId d]; cbn [handlerOf inWeek] in *.
  - by eexists.
  - apply list_elem_of_lookup in Ha as [i Hi].
    destruct (Forall2_lookup_l _ _ _ _ _ Hkeys Hi) as (key & Hkey & Hfmt).
    apply list_elem_of_lookup_2 in Hkey.
    destruct (decide (blank (newTask st))) as [Hb|Hb].
    { unfold after. rewrite (run_add_blank _ _ _ _ Hb). by eexists. }
    destruct (addTask api [] {| data_name := newTask st; data_completed := false;
                                data_date := key |}) as [T|e] eqn:HT.
    + unfold after. rewrite (run_add_fulfilled _ _ _ _ key T Hb Hfmt HT).
      eexists. split; [reflexivity|]. cbn. rewrite dom_insert_L, Hdom.
      by apply union_singleton_in, elem_of_list_to_set.
    + unfold after. rewrite (run_add_rejected _ _ _ _ key e Hb Hfmt HT).
      by eexists.
  - assert (is_Some (tasksByDate st !! d)) as [tasks Hd].
    { apply elem_of_dom. rewrite Hdom. by apply elem_of_list_to_set. }
    unfold after. rewrite run_toggle.
    destruct (toggleTaskCompletion api [] taskId); cbn; [|by eexists].
    rewrite Hd. cbn. eexists. split; [reflexivity|]. cbn.
    rewrite dom_insert_L, Hdom. by apply union_singleton_in, elem_of_list_to_set.
  - assert (is_Some (tasksByDate st !! d)) as [tasks Hd].
    { apply elem_of_dom. rewrite Hdom. by apply elem_of_list_to_set. }
    unfold after. rewrite run_delete.
    destruct (deleteTask api [] taskId); cbn; [|by eexists].
    rewrite Hd. cbn. eexists. split; [reflexivity|]. cbn.
    rewrite dom_insert_L, Hdom. by apply union_singleton_in, elem_of_list_to_set.
Qed.

(** C9. After the week fetch has settled, the keys of the state
    are formatted dates of the week, and they are all seven of them when
    all seven requests were fulfilled; from a state whose keys are the
    formatted dates of the week, every sequence of adds, toggles and
    deletes on rows of the week is applied without error and keeps the
    keys. *)
Theorem week_keys_invariant tza weekDates keys :
  Forall2 (λ date key, formatDateToYYYYMMDD tza date = Normal key) weekDates keys ->
  (forall api st,
     exists st',
       after st (fetchTasksForWeek tza api weekDates) = Normal st'
       /\ dom (tasksByDate st') ⊆ list_to_set keys
       /\ ((forall i key, keys !! i = Some key ->
              exists tasks, getTasksByDate api (GetTasksByDate <$> take i keys) key
                            = Fulfilled tasks) ->
           dom (tasksByDate st') = list_to_set keys))
  /\ (forall steps st,
        dom (tasksByDate st) = list_to_set keys ->
        Forall (λ step, inWeek weekDates keys step.2) steps ->
        exists st', session tza st steps = Normal st'
                    /\ dom (tasksByDate st') = list_to_set keys).
Proof.
  intros Hkeys. split.
  - intros api st. eexists. split; [by apply after_fetch|]. cbn. split.
    + etrans; [apply dom_fetchedTasks_subseteq|]. set_tauto.
    + intros Hall. rewrite dom_fetchedTasks_fulfilled by done. set_tauto.
  - induction steps as [|[api a] steps IH]; intros st Hdom Hsteps.
    + by eexists.
    + apply Forall_cons_1 in Hsteps as [Ha Hsteps].
      destruct (react_keeps_keys tza api st weekDates keys a Hkeys Hdom Ha)
        as (st1 & Hreact & Hdom1).
      destruct (IH st1 Hdom1 Hsteps) as (st' & Hsession & Hdom').
      exists st'. split; [|done]. cbn [session]. by rewrite Hreact.
Qed.

(** * Formatting and parsing a date *)

Lemma digit_range z : (48 <= digit (z mod 10) <= 57)%N.
Proof. unfold digit. assert (0 <= z mod 10 <= 9) by zdiv. lia. Qed.

Lemma digitValue_digit z : digitValue (digit (z mod 10)) = Some (z mod 10).
Proof.
  pose proof (digit_range z) as [H1 H2]. unfold digitValue.
  rewrite (proj2 (N.leb_le _ _) H1), (proj2 (N.leb_le _ _) H2). cbn.
  f_equal. unfold digit. assert (0 <= z mod 10 <= 9) by zdiv. lia.
Qed.

Lemma readDigits_snoc w : forall acc s v c d r,
  readDigits w acc s = Some (v, c :: r) -> digitValue c = Some d ->
  readDigits (S w) acc s = Some (10 * v + d, r).
Proof.
  induction w as [|w IH]; intros acc s v c d r H Hc.
  - injection H as -> ->. cbn. by rewrite Hc.
  - cbn in H. destruct s as [|c' s']; [done|].
    destruct (digitValue c') as [v'|] eqn:E; [|done]. cbn in H.
    change (readDigits (S (S w)) acc (c' :: s'))
      with (v0 ← digitValue c'; readDigits (S w) (10 * acc + v0) s').
    rewrite E. cbn [mbind option_bind]. by apply IH with c.
Qed.

(** Reading back the [w] digits of a number below [10 ^ w]. *)
Lemma readDigits_digits w : forall n acc rest,
  0 <= n < 10 ^ Z.of_nat w ->
  readDigits w acc (digits w n ++ rest) = Some (acc * 10 ^ Z.of_nat w + n, rest).
Proof.
  induction w as [|w IH]; intros n acc rest Hn.
  - cbn in *. do 2 f_equal. lia.
  - rewrite Nat2Z.inj_succ, Z.pow_succ_r in * by lia.
    cbn [digits]. rewrite <- app_assoc. cbn [app].
    rewrite (readDigits_snoc w acc _ (acc * 10 ^ Z.of_nat w + n / 10)
               (digit (n mod 10)) (n mod 10) rest).
    + do 2 f_equal. zdiv.
    + apply IH. zdiv.
    + apply digitValue_digit.
Qed.

Lemma digits_head w n rest :
  exists z s', digits (S w) n ++ rest = digit (z mod 10) :: s'.
Proof.
  revert n rest. induction w as [|w IH]; intros n rest.
  - by exists n, rest.
  - change (digits (S (S w)) n) with (digits (S w) (n / 10) ++ [digit (n mod 10)]).
    rewrite <- app_assoc. apply IH.
Qed.

Lemma readYear_yearString y rest :
  -999999 <= y <= 999999 ->
  readYear (yearString y ++ rest) = Some (y, rest).
Proof.
  intros Hy. unfold yearString.
  destruct (Z.leb_spec 0 y) as [H0|H0]; cbn [andb].
  - destruct (Z.leb_spec y 9999) as [H1|H1].
    + destruct (digits_head 3 y rest) as (z & s' & E).
      unfold readYear. rewrite E.
      pose proof (digit_range z) as Hz.
      destruct (N.eqb_spec (digit (z mod 10)) 43); [lia|].
      destruct (N.eqb_spec (digit (z mod 10)) 45); [lia|].
      rewrite <- E, readDigits_digits by (change (10 ^ Z.of_nat 4) with 10000; lia).
      do 2 f_equal.
    + destruct (Z.ltb_spec y 0); [lia|].
      change (js "+") with [43%N]. cbn [app readYear N.eqb Pos.eqb].
      rewrite readDigits_digits by (change (10 ^ Z.of_nat 6) with 1000000; lia).
      do 2 f_equal. lia.
  - destruct (Z.ltb_spec y 0); [|lia].
    change (js "-") with [45%N]. cbn [app readYear N.eqb Pos.eqb].
    rewrite readDigits_digits by (change (10 ^ Z.of_nat 6) with 1000000; lia).
    cbn [mbind option_bind]. destruct (Z.eqb_spec (0 * 10 ^ Z.of_nat 6 + Z.abs y) 0); [lia|].
    do 2 f_equal. lia.
Qed.

Lemma readDateOnly_isoDate y m d :
  -999999 <= y <= 999999 -> 0 <= m < 100 -> 0 <= d < 100 ->
  readDateOnly (yearString y ++ js "-" ++ digits 2 m ++ js "-" ++ digits 2 d)
  = Some (y, m, d).
Proof.
  intros Hy Hm Hd. unfold readDateOnly.
  rewrite readYear_yearString by done. cbn [mbind option_bind].
  change (js "-") with [45%N]. cbn [app expect N.eqb Pos.eqb mbind option_bind].
  rewrite readDigits_digits by (change (10 ^ Z.of_nat 2) with 100; lia).
  cbn [mbind option_bind app expect N.eqb Pos.eqb].
  rewrite <- (app_nil_r (digits 2 d)).
  rewrite readDigits_digits by (change (10 ^ Z.of_nat 2) with 100; lia).
  cbn [mbind option_bind]. do 3 f_equal; lia.
Qed.

Lemma split_0_app sep s rest :
  sep ∉ s -> split_0 sep (s ++ sep :: rest) = s.
Proof.
  induction s as [|c s IH]; intros Hs; cbn.
  - by rewrite N.eqb_refl.
  - apply not_elem_of_cons in Hs as [Hc Hs].
    destruct (N.eqb_spec c sep); [congruence|]. by rewrite IH.
Qed.

Lemma digits_not_T w n : 84%N ∉ digits w n.
Proof.
  revert n. induction w as [|w IH]; intros n; cbn; [apply not_elem_of_nil|].
  apply not_elem_of_app. split; [apply IH|].
  apply not_elem_of_cons. split; [|apply not_elem_of_nil].
  pose proof (digit_range n). lia.
Qed.

Lemma yearString_not_T y : 84%N ∉ yearString y.
Proof.
  unfold yearString. destruct (_ && _); [apply digits_not_T|].
  apply not_elem_of_app. split; [|apply digits_not_T].
  destruct (y <? 0); vm_compute; by intros [?|[]%elem_of_nil]%elem_of_cons.
Qed.

(** The date part of the ISO string of [t]. *)
Lemma split_toISOString t :
  (s ← toISOString (Some t); Normal (split_0 84 s))
  = Normal (yearString (YearFromTime t) ++ js "-" ++ digits 2 (MonthFromTime t + 1)
            ++ js "-" ++ digits 2 (DateFromTime t)).
Proof.
  cbn [toISOString mbind Completion_bind]. f_equal.
  set (date := yearString (YearFromTime t) ++ js "-" ++ digits 2 (MonthFromTime t + 1)
               ++ js "-" ++ digits 2 (DateFromTime t)).
  set (time := digits 2 (HourFromTime t) ++ _).
  transitivity (split_0 84 (date ++ 84%N :: time)).
  { f_equal. subst date. by rewrite <- !app_assoc. }
  apply split_0_app. subst date.
  rewrite !not_elem_of_app. split_and!;
    try apply digits_not_T; try apply yearString_not_T;
    vm_compute; by intros [?|[]%elem_of_nil]%elem_of_cons.
Qed.

Lemma YearFromDay_bound n :
  Z.abs (n * msPerDay) <= maxTime -> -999999 <= YearFromDay n <= 999999.
Proof.
  intros Hn. pose proof (YearFromDay_spec n) as Hs.
  rewrite DayFromYear_succ, DaysInYear_leapDays in Hs.
  destruct (leapDays_cases (YearFromDay n)) as [E|E]; rewrite E in Hs;
    unfold DayFromYear, msPerDay, maxTime in *; zdiv.
Qed.

(** The fields of a time value depend on its day only. *)
Lemma fields_of_Day t t' :
  Day t = Day t' ->
  YearFromTime t = YearFromTime t' /\ MonthFromTime t = MonthFromTime t'
  /\ DateFromTime t = DateFromTime t'.
Proof.
  intros E.
  unfold DateFromTime, MonthFromTime, InLeapYear, DayWithinYear, YearFromTime.
  by rewrite E.
Qed.

(** Parsing the date part of the ISO string of a time value yields the
    midnight that starts its day. *)
Lemma parseDateOnly_isoDate t :
  Z.abs (Day t * msPerDay) <= maxTime ->
  parseDateOnly (yearString (YearFromTime t) ++ js "-"
                 ++ digits 2 (MonthFromTime t + 1) ++ js "-"
                 ++ digits 2 (DateFromTime t))
  = Some (Day t * msPerDay).
Proof.
  intros Ht.
  pose proof (YearFromDay_bound (Day t) Ht) as Hy. fold (YearFromTime t) in Hy.
  pose proof (MonthFromTime_range t) as Hm.
  pose proof (DateFromTime_range t) as Hd.
  pose proof (DaysInMonth_le (YearFromTime t) (MonthFromTime t)) as Hd'.
  unfold parseDateOnly. rewrite readDateOnly_isoDate by lia.
  cbn [mbind option_bind]. replace (MonthFromTime t + 1 - 1) with (MonthFromTime t) by lia.
  destruct (Z.leb_spec 1 (MonthFromTime t + 1)); [|lia].
  destruct (Z.leb_spec (MonthFromTime t + 1) 12); [|lia].
  destruct (Z.leb_spec 1 (DateFromTime t)); [|lia].
  destruct (Z.leb_spec (DateFromTime t)
              (DaysInMonth (YearFromTime t) (MonthFromTime t))); [|lia].
  cbn [andb].
  pose proof (MakeDay_fields t 0) as Hday. rewrite Z.add_0_r in Hday.
  rewrite Hday, Z.add_0_r. unfold MakeDate, MakeTime.
  rewrite Z.add_0_r. by apply TimeClip_Some.
Qed.

(** Outside the years 0 to 99, the formatted date of a date is the date
    part of the ISO string of the midnight UTC that starts its local day. *)
Lemma formatDateToYYYYMMDD_eq tza t :
  let u := Day (LocalTime tza t) * msPerDay in
  ¬ (0 <= YearFromTime (LocalTime tza t) <= 99) ->
  Z.abs u <= maxTime ->
  formatDateToYYYYMMDD tza (Some t)
  = Normal (yearString (YearFromTime u) ++ js "-"
            ++ digits 2 (MonthFromTime u + 1) ++ js "-"
            ++ digits 2 (DateFromTime u)).
Proof.
  intros u Hy Hu.
  assert (Eday : Day u = Day (LocalTime tza t)).
  { subst u. unfold Day at 1, msPerDay. zdiv. }
  destruct (fields_of_Day _ _ Eday) as (Ey & Em & Ed).
  unfold formatDateToYYYYMMDD, getFullYear, getMonth, getDate, Date_UTC.
  cbn [mbind option_bind]. rewrite <- Ey, <- Em, <- Ed.
  unfold MakeFullYear.
  destruct (Z.leb_spec 0 (YearFromTime u)); cbn [andb];
    [destruct (Z.leb_spec (YearFromTime u) 99); [lia|]|].
  all: pose proof (MakeDay_fields u 0) as Hday; rewrite Z.add_0_r in Hday;
    rewrite Hday, Eday; unfold MakeDate, MakeTime; rewrite !Z.add_0_r;
    fold u; rewrite (TimeClip_Some u Hu); cbn [newDate_number mbind option_bind];
    rewrite (TimeClip_Some u Hu); apply split_toISOString.
Qed.

(** Formatting a date and parsing the string yields the midnight UTC that
    starts the local calendar day of the date, in every time zone, unless
    the local year is one of 0 to 99. *)
Lemma format_parse_roundtrip tza t :
  let u := Day (LocalTime tza t) * msPerDay in
  ¬ (0 <= YearFromTime (LocalTime tza t) <= 99) ->
  Z.abs u <= maxTime ->
  exists s,
    formatDateToYYYYMMDD tza (Some t) = Normal s
    /\ newDate_string s = Some u
    /\ getFullYear 0 (newDate_string s) = getFullYear tza (Some t)
    /\ getMonth 0 (newDate_string s) = getMonth tza (Some t)
    /\ getDate 0 (newDate_string s) = getDate tza (Some t).
Proof.
  intros u Hy Hu.
  exists (yearString (YearFromTime u) ++ js "-"
          ++ digits 2 (MonthFromTime u + 1) ++ js "-"
          ++ digits 2 (DateFromTime u)).
  split; [by apply formatDateToYYYYMMDD_eq|].
  assert (Eday : Day u = Day (LocalTime tza t)).
  { subst u. unfold Day at 1, msPerDay. zdiv. }
  assert (Hp : newDate_string
                 (yearString (YearFromTime u) ++ js "-"
                  ++ digits 2 (MonthFromTime u + 1) ++ js "-"
                  ++ digits 2 (DateFromTime u)) = Some u).
  { unfold newDate_string. rewrite parseDateOnly_isoDate; rewrite Eday; done. }
  rewrite Hp. split; [done|].
  destruct (fields_localDay tza t) as (-> & -> & ->). done.
Qed.

Lemma YearFromDay_ge n y : DayFromYear y <= n -> y <= YearFromDay n.
Proof.
  intros Hn. pose proof (YearFromDay_spec n) as [_ Hs].
  destruct (Z.le_gt_cases y (YearFromDay n)) as [|Hlt]; [done|].
  pose proof (DayFromYear_mono (YearFromDay n + 1) y ltac:(lia)). lia.
Qed.

(** The dates [ts] have formatted dates, which parse to the midnights UTC
    that start their local days. *)
Lemma formatted_keys tza (ts : list Z) :
  Forall (λ t, ¬ (0 <= YearFromTime (LocalTime tza t) <= 99)
               /\ Z.abs (Day (LocalTime tza t) * msPerDay) <= maxTime) ts ->
  exists keys,
    Forall2 (λ date key, formatDateToYYYYMMDD tza date = Normal key) (Some <$> ts) keys
    /\ newDate_string <$> keys
       = (λ t, Some (Day (LocalTime tza t) * msPerDay)) <$> ts.
Proof.
  induction 1 as [|t ts [Hy Hu] _ (keys & Hkeys & Hparse)].
  - exists []. split; [constructor|done].
  - destruct (format_parse_roundtrip tza t Hy Hu) as (key & Hkey & Hp & _).
    exists (key :: keys). split; [by constructor|].
    cbn [fmap list_fmap]. by rewrite Hp, <- Hparse.
Qed.

(** The seven dates of the week of a reference date after the year 100
    have seven distinct formatted dates. *)
Lemma week_keys_distinct tza s t :
  length s = 10%nat -> newDate_string s = Some t ->
  - msPerDay < tza < msPerDay -> 100 < YearFromTime t ->
  exists keys,
    Forall2 (λ date key, formatDateToYYYYMMDD tza date = Normal key)
      (weekDatesOf tza s) keys
    /\ length keys = 7%nat /\ NoDup keys.
Proof.
  intros Hl Ht Htz Hy.
  destruct (parseDateOnly_YYYYMMDD s t Hl Ht) as (n & Hn & Hr).
  destruct (week_of_reference_date tza s t Hl Ht) as (_ & _ & Hw & _).
  set (c := t + 1 * msPerDay) in *.
  set (m := c - daysSinceMonday (WeekDay (LocalTime tza c)) * msPerDay) in *.
  pose proof (daysSinceMonday_range (LocalTime tza c)) as Hoff.
  assert (Hn100 : DayFromYear 100 + 365 <= n).
  { pose proof (YearFromDay_spec (Day t)) as [Hs _]. fold (YearFromTime t) in Hs.
    pose proof (DayFromYear_mono 101 (YearFromTime t) ltac:(lia)).
    assert (Day t = n) by (subst t; unfold Day, msPerDay; zdiv).
    assert (DayFromYear 101 = DayFromYear 100 + 365) by reflexivity. lia. }
  assert (HM : n - 7 <= Day (LocalTime tza m) <= n + 2).
  { subst m c t. unfold Day, LocalTime, msPerDay in *. zdiv. }
  set (M := Day (LocalTime tza m)) in *.
  destruct (formatted_keys tza ((λ i, m + i * msPerDay) <$> seqZ 0 7))
    as (keys & Hkeys & Hparse).
  { apply Forall_fmap, Forall_forall. intros i Hi%elem_of_seqZ. cbn.
    rewrite Day_LocalTime_add. fold M. split.
    - unfold YearFromTime. rewrite Day_LocalTime_add. fold M.
      pose proof (YearFromDay_ge (M + i) 100 ltac:(lia)). lia.
    - clear -HM Hr Hi. unfold msPerDay, maxTime. lia. }
  rewrite <- list_fmap_compose in Hkeys, Hparse.
  exists keys. rewrite Hw. split; [exact Hkeys|].
  split.
  - apply (f_equal length) in Hparse. by rewrite !length_fmap in Hparse.
  - apply (NoDup_fmap_1 newDate_string). rewrite Hparse.
    apply NoDup_fmap_2; [|apply NoDup_seqZ].
    intros i j [= Hij]. rewrite !Day_LocalTime_add in Hij.
    unfold msPerDay in Hij. lia.
Qed.

(** C2. A date in the year 50 is formatted as the same day of 1950: the
    string parses to another day than the one formatted. *)
Theorem format_year_50 :
  getFullYear 0 (newDate_string (js "0050-06-15")) = Some 50
  /\ formatDateToYYYYMMDD 0 (newDate_string (js "0050-06-15")) = Normal (js "1950-06-15")
  /\ getFullYear 0 (newDate_string (js "1950-06-15")) = Some 1950
  /\ newDate_string (js "1950-06-15") ≠ newDate_string (js "0050-06-15").
Proof. split_and!; [vm_compute; reflexivity..|vm_compute; discriminate]. Qed.

(** * Week navigation *)

(** [navigateWeek] sets the reference date to a string for the local day
    of the parsed reference date, moved by seven days. *)
Lemma navigateWeek_day tza s t direction :
  newDate_string s = Some t ->
  - msPerDay < tza < msPerDay ->
  Z.abs t <= maxTime - 9 * msPerDay ->
  let n' := Day (LocalTime tza t)
            + (if decide (direction = js "next") then 7 else -7) in
  ¬ (0 <= YearFromDay n' <= 99) ->
  exists s',
    run (navigateWeek tza s direction) = (Normal (), [SetSelectedDate s'])
    /\ newDate_string s' = Some (n' * msPerDay).
Proof.
  intros Ht Htz Hr n' Hy.
  set (k := if decide (direction = js "next") then 7 else -7) in *.
  assert (Hk : -7 <= k <= 7) by (subst k; case_decide; lia).
  set (t2 := t + k * msPerDay).
  assert (Hday : Day (LocalTime tza t2) = n') by apply Day_LocalTime_add.
  assert (Hn' : Z.abs (n' * msPerDay) <= maxTime).
  { subst n'. unfold Day, LocalTime, msPerDay, maxTime in *. zdiv. }
  destruct (format_parse_roundtrip tza t2) as (s' & Hs' & Hp & _).
  { unfold YearFromTime. by rewrite Hday. }
  { by rewrite Hday. }
  exists s'. rewrite Hday in Hp. split; [|done].
  pose proof (setDate_getDate tza t k) as Hset. fold t2 in Hset.
  rewrite (TimeClip_Some t2) in Hset
    by (subst t2; unfold msPerDay, maxTime in *; lia).
  unfold run, navigateWeek. rewrite Ht.
  subst k. rewrite Hset. by rewrite Hs'.
Qed.

Lemma previous_not_next : js "previous" ≠ js "next".
Proof. intros H. vm_compute in H. discriminate. Qed.

(** "Next Week" and then "Previous Week" from a reference date after the
    year 100: at or east of UTC the reference date is the same day again,
    west of UTC it is two days earlier. *)
Lemma next_then_previous_day tza st t :
  length (selectedDate st) = 10%nat ->
  newDate_string (selectedDate st) = Some t ->
  - msPerDay < tza < msPerDay ->
  100 < YearFromTime t ->
  exists st',
    nextThenPrevious tza st = Normal st'
    /\ newDate_string (selectedDate st')
       = Some (if 0 <=? tza then t else t - 2 * msPerDay).
Proof.
  intros Hl Ht Htz Hy.
  destruct (parseDateOnly_YYYYMMDD _ t Hl Ht) as (n & Hn & Hr).
  assert (Hn100 : DayFromYear 100 + 365 <= n).
  { pose proof (YearFromDay_spec (Day t)) as [Hs _]. fold (YearFromTime t) in Hs.
    pose proof (DayFromYear_mono 101 (YearFromTime t) ltac:(lia)).
    assert (Day t = n) by (subst t; unfold Day, msPerDay; zdiv).
    assert (DayFromYear 101 = DayFromYear 100 + 365) by reflexivity. lia. }
  assert (Hquirk : forall n', n - 20 <= n' -> ¬ (0 <= YearFromDay n' <= 99)).
  { intros n' Hn'. pose proof (YearFromDay_ge n' 100 ltac:(lia)). lia. }
  assert (Hlocal : forall j, -9 <= j <= 9 ->
            Day (LocalTime tza ((n + j) * msPerDay))
            = if 0 <=? tza then n + j else n + j - 1).
  { intros j _. destruct (Z.leb_spec 0 tza); unfold Day, LocalTime, msPerDay in *; zdiv. }
  pose proof (Hlocal 0 ltac:(lia)) as Hl0. rewrite Z.add_0_r, <- Hn in Hl0.
  destruct (navigateWeek_day tza (selectedDate st) t (js "next") Ht Htz)
    as (s1 & Hrun1 & Hp1).
  { subst t. clear -Hr. unfold msPerDay, maxTime. lia. }
  { apply Hquirk. rewrite Hl0, decide_True by done. destruct (0 <=? tza); lia. }
  rewrite decide_True, Hl0 in Hp1 by done.
  set (j := if 0 <=? tza then 7 else 6).
  assert (Hj : (if 0 <=? tza then n else n - 1) + 7 = n + j)
    by (subst j; destruct (0 <=? tza); lia).
  rewrite Hj in Hp1.
  destruct (navigateWeek_day tza s1 ((n + j) * msPerDay) (js "previous") Hp1 Htz)
    as (s2 & Hrun2 & Hp2).
  { subst j. clear -Hr. destruct (0 <=? tza); unfold msPerDay, maxTime; lia. }
  { apply Hquirk. rewrite decide_False by apply previous_not_next.
    rewrite Hlocal by (subst j; destruct (0 <=? tza); lia).
    subst j. destruct (0 <=? tza); lia. }
  rewrite decide_False in Hp2 by apply previous_not_next.
  rewrite Hlocal in Hp2 by (subst j; destruct (0 <=? tza); lia).
  exists {| selectedDate := s2; newTask := newTask st; tasksByDate := tasksByDate st |}.
  split.
  - unfold nextThenPrevious, navigate, after. rewrite Hrun1.
    cbn [snd applyEffects applyEffect mbind Completion_bind selectedDate].
    by rewrite Hrun2.
  - cbn [selectedDate]. rewrite Hp2. f_equal. subst t j.
    destruct (0 <=? tza); lia.
Qed.

(** C3. Five hours west of UTC, "Next Week" and then "Previous Week" from
    2024-06-12 end on 2024-06-10: the first click moves the date forward by
    six days and the second moves it back by eight. *)
Theorem next_then_previous_west_of_UTC :
  navigate (-18000000) (sampleState [] ∅) (js "next")
  = Normal {| selectedDate := js "2024-06-18"; newTask := []; tasksByDate := ∅ |}
  /\ navigate (-18000000)
       {| selectedDate := js "2024-06-18"; newTask := []; tasksByDate := ∅ |}
       (js "previous")
     = Normal {| selectedDate := js "2024-06-10"; newTask := []; tasksByDate := ∅ |}
  /\ nextThenPrevious (-18000000) (sampleState [] ∅)
     = Normal {| selectedDate := js "2024-06-10"; newTask := []; tasksByDate := ∅ |}
  /\ js "2024-06-10" ≠ selectedDate (sampleState [] ∅).
Proof. split_and!; [vm_compute; reflexivity..|discriminate]. Qed.

(** * Sample runs *)

Lemma sampleWeek_eq : weekDatesOf 0 (js "2024-06-12") = sampleWeek.
Proof. vm_compute. reflexivity. Qed.

Lemma sampleWeek_keys :
  Forall2 (λ date key, formatDateToYYYYMMDD 0 date = Normal key) sampleWeek sampleKeys.
Proof. repeat constructor; vm_compute; reflexivity. Qed.

Lemma sampleKeys_NoDup : NoDup sampleKeys.
Proof. apply (bool_decide_unpack _). vm_compute. exact I. Qed.

(** The week of 2024-06-12 fetched from a service that fails on one day. *)
Lemma week_fetch_replaces_state_witness :
  exists m,
    after (sampleState [] {[ js "2024-06-03" := [sampleTask 5] ]})
      (fetchTasksForWeek 0 flakyService sampleWeek)
    = Normal (sampleState [] m)
    /\ m !! js "2024-06-12" = Some [sampleTask 1]
    /\ m !! js "2024-06-13" = None
    /\ m !! js "2024-06-03" = None.
Proof.
  destruct (week_fetch_replaces_state 0 flakyService
              (sampleState [] {[ js "2024-06-03" := [sampleTask 5] ]})
              sampleWeek sampleKeys)
    as (log & m & _ & _ & _ & _ & Hin & Hout & Hafter).
  - reflexivity.
  - repeat constructor; vm_compute; reflexivity.
  - apply (bool_decide_unpack _). vm_compute. exact I.
  - exists m. split_and!.
    + exact Hafter.
    + exact (Hin 2%nat (js "2024-06-12") eq_refl).
    + exact (Hin 3%nat (js "2024-06-13") eq_refl).
    + apply Hout. apply (bool_decide_unpack _). vm_compute. exact I.
Defined.

(** C9 at a rejected request: after the week of 2024-06-12 is fetched
    from a service that fails on 2024-06-13, the state has six keys, which
    are not the seven formatted dates of the week. *)
Lemma keys_after_rejected_request :
  after (sampleState [] ∅) (useEffect 0 flakyService (js "2024-06-12"))
  = Normal (sampleState [] sampleFetched)
  /\ formatDateToYYYYMMDD 0 <$> weekDatesOf 0 (js "2024-06-12") = Normal <$> sampleKeys
  /\ dom sampleFetched ≠ list_to_set sampleKeys.
Proof.
  split_and!; [vm_compute; reflexivity..|].
  intros Heq.
  assert (Hin : js "2024-06-13" ∈ dom sampleFetched).
  { rewrite Heq. apply elem_of_list_to_set, (bool_decide_unpack _).
    vm_compute. exact I. }
  apply elem_of_dom in Hin as [tasks Htasks]. vm_compute in Htasks. discriminate.
Qed.

(** From the fetched week of 2024-06-12: an add, a toggle and a delete. *)
Lemma week_keys_invariant_witness :
  exists st1 st',
    after (sampleState (js "Buy milk") ∅)
      (fetchTasksForWeek 0 (sampleService true) sampleWeek) = Normal st1
    /\ dom (tasksByDate st1) = list_to_set sampleKeys
    /\ session 0 st1
         [(sampleService true, ClickAdd (Some 1718150400000));
          (sampleService true, ClickToggle 7 (js "2024-06-12"));
          (sampleService false, ClickDelete 7 (js "2024-06-12"))] = Normal st'
    /\ dom (tasksByDate st') = list_to_set sampleKeys.
Proof.
  destruct (week_keys_invariant 0 sampleWeek sampleKeys) as [Hfetch Hkeep].
  - repeat constructor; vm_compute; reflexivity.
  - destruct (Hfetch (sampleService true) (sampleState (js "Buy milk") ∅))
      as (st1 & Hafter & _ & Hdom).
    assert (Hdom1 : dom (tasksByDate st1) = list_to_set sampleKeys).
    { apply Hdom. intros i key _. by eexists. }
    destruct (Hkeep
      [(sampleService true, ClickAdd (Some 1718150400000));
       (sampleService true, ClickToggle 7 (js "2024-06-12"));
       (sampleService false, ClickDelete 7 (js "2024-06-12"))] st1 Hdom1)
      as (st' & Hsession & Hdom').
    + repeat constructor; apply (bool_decide_unpack _); vm_compute; exact I.
    + exists st1, st'. split_and!; [exact Hafter|exact Hdom1|exact Hsession|exact Hdom'].
Defined.

(** * The week helpers on any date *)








(** * Invalid dates in the week *)

Lemma formatDateToYYYYMMDD_invalid tza : formatDateToYYYYMMDD tza None = Throw RangeError.
Proof. reflexivity. Qed.

(** X4. When a date of the week is an Invalid Date, [fetchTasksForWeek]
    throws a RangeError at that date: the days before it have been
    requested, the days after it are not, and no state update is issued,
    so the state stays as it was and the tasks already fetched are
    dropped. *)
Theorem fetch_stops_at_invalid_date tza api st dates keys rest :
  Forall2 (λ date key, formatDateToYYYYMMDD tza date = Normal key) dates keys ->
  exists log,
    run (fetchTasksForWeek tza api (dates ++ None :: rest)) = (Throw RangeError, log)
    /\ requests log = GetTasksByDate <$> keys
    /\ Forall (λ e, ¬ isUpdate e) log
    /\ after st (fetchTasksForWeek tza api (dates ++ None :: rest)) = Normal st.
Proof.
  intros Hkeys.
  assert (Hloop : forall acc trace,
            exists log,
              fetchLoop tza api (dates ++ None :: rest) acc trace
              = (Throw RangeError, trace ++ log)
              /\ requests log = GetTasksByDate <$> keys
              /\ Forall (λ e, ¬ isUpdate e) log).
  { induction Hkeys as [|date key dates keys Hkey _ IH]; intros acc trace.
    - exists []. rewrite app_nil_r. split; [done|]. by split.
    - cbn [app fetchLoop]. rewrite Hkey.
      cbv [lift mbind Handler_bind tryCatch await emit mret Handler_ret].
      destruct (getTasksByDate api (requests trace) key) as [tasks|e].
      + destruct (IH (<[key := tasks]> acc) (trace ++ [Remote (GetTasksByDate key)]))
          as (log & Hrun & Hreq & Hno).
        exists (Remote (GetTasksByDate key) :: log).
        rewrite Hrun, <- app_assoc. split; [done|]. split.
        * cbn. by rewrite <- Hreq.
        * constructor; [by intros []|done].
      + set (msg := js "Error fetching tasks for date " ++ key ++ js ":").
        destruct (IH acc ((trace ++ [Remote (GetTasksByDate key)])
                          ++ [ConsoleError msg e]))
          as (log & Hrun & Hreq & Hno).
        exists (Remote (GetTasksByDate key) :: ConsoleError msg e :: log).
        rewrite Hrun, <- !app_assoc. split; [done|]. split.
        * cbn. by rewrite <- Hreq.
        * repeat constructor; [by intros []|by intros []|done]. }
  destruct (Hloop ∅ []) as (log & Hrun & Hreq & Hno). cbn [app] in Hrun.
  assert (Hfetch : run (fetchTasksForWeek tza api (dates ++ None :: rest))
                   = (Throw RangeError, log)).
  { unfold run, fetchTasksForWeek. cbv [mbind Handler_bind]. by rewrite Hrun. }
  exists log. rewrite Hfetch. split; [done|]. split; [done|]. split; [done|].
  unfold after. rewrite Hfetch. cbn [snd].
  clear -Hno. revert st. induction Hno as [|e log He _ IH]; intros st; [done|].
  cbn [applyEffects]. destruct e; try (by destruct He); apply IH.
Qed.

(** A week whose third date is invalid, with a service that has a task for
    every date: two requests, no update. *)
Lemma fetch_stops_at_invalid_date_witness :
  exists log,
    run (fetchTasksForWeek 0 flakyService
           ([Some 1717977600000; Some 1718064000000] ++ None :: [Some 1718236800000]))
    = (Throw RangeError, log)
    /\ requests log = [GetTasksByDate (js "2024-06-10"); GetTasksByDate (js "2024-06-11")].
Proof.
  destruct (fetch_stops_at_invalid_date 0 flakyService (sampleState [] ∅)
              [Some 1717977600000; Some 1718064000000]
              [js "2024-06-10"; js "2024-06-11"] [Some 1718236800000])
    as (log & Hrun & Hreq & _).
  - repeat constructor; vm_compute; reflexivity.
  - exists log. split; [exact Hrun|exact Hreq].
Defined.

(** X5. An Invalid Date stays invalid through the week helpers, and the
    component then fails before it does anything: [getStartOfWeek] and
    [generateWeekDates] return Invalid Dates, the week fetch throws a
    RangeError before its first request and leaves the state as it was,
    [handleAddTask] with a non-blank name throws the RangeError to its
    caller without a remote call, and the rows cannot be rendered. *)
Theorem invalid_date_week tza api st name :
  getStartOfWeek tza None = (None, None)
  /\ generateWeekDates tza None = replicate 7 None
  /\ run (fetchTasksForWeek tza api (generateWeekDates tza None))
     = (Throw RangeError, [])
  /\ after st (fetchTasksForWeek tza api (generateWeekDates tza None)) = Normal st
  /\ (blank name \/
      run (handleAddTask tza api name None) = (Throw RangeError, []))
  /\ renderRows tza st 0 (generateWeekDates tza None) = Throw RangeError.
Proof.
  split; [done|]. split; [done|]. split; [done|]. split; [done|]. split; [|done].
  destruct (decide (blank name)) as [Hb|Hb]; [by left|right].
  unfold run, handleAddTask.
  destruct (truthy (trim name)) eqn:E; [done|by apply truthy_trim in E].
Qed.

(** * More on formatting and parsing *)

Lemma length_digits w n : length (digits w n) = w.
Proof.
  revert n. induction w as [|w IH]; intros n; [done|].
  cbn [digits]. rewrite length_app, IH. cbn. lia.
Qed.

Lemma digit_digitValue c d : digitValue c = Some d -> digit d = c /\ 0 <= d <= 9.
Proof.
  unfold digitValue, digit. case_match eqn:E; [|done]. intros [= <-].
  apply andb_true_iff in E as [?%N.leb_le ?%N.leb_le]. lia.
Qed.

Lemma digits_cons w : forall d n,
  0 <= d <= 9 -> 0 <= n < 10 ^ Z.of_nat w ->
  digits (S w) (d * 10 ^ Z.of_nat w + n) = digit d :: digits w n.
Proof.
  induction w as [|w IH]; intros d n Hd Hn.
  - cbn in Hn. assert (n = 0) as -> by lia. cbn [digits app].
    change (10 ^ Z.of_nat 0) with 1. do 2 f_equal. zdiv.
  - rewrite Nat2Z.inj_succ, Z.pow_succ_r in * by lia.
    set (P := 10 ^ Z.of_nat w) in *.
    change (digits (S (S w)) (d * (10 * P) + n))
      with (digits (S w) ((d * (10 * P) + n) / 10)
            ++ [digit ((d * (10 * P) + n) mod 10)]).
    assert (E1 : (d * (10 * P) + n) / 10 = d * P + n / 10)
      by (replace (d * (10 * P)) with (d * P * 10) by lia;
          generalize (d * P); intros q; zdiv).
    assert (E2 : (d * (10 * P) + n) mod 10 = n mod 10)
      by (replace (d * (10 * P)) with (d * P * 10) by lia;
          generalize (d * P); intros q; zdiv).
    rewrite E1, E2, IH by (try done; zdiv). done.
Qed.

(** The digits [readDigits] reads are the digits of the number it returns. *)
Lemma readDigits_inv w : forall acc s v r,
  readDigits w acc s = Some (v, r) ->
  exists n, 0 <= n < 10 ^ Z.of_nat w /\ v = acc * 10 ^ Z.of_nat w + n
            /\ s = digits w n ++ r.
Proof.
  induction w as [|w IH]; intros acc s v r H.
  - injection H as <- <-. exists 0. cbn. split; [lia|]. split; [lia|done].
  - cbn in H. destruct s as [|c s']; [done|].
    destruct (digitValue c) as [d|] eqn:Hc; [|done]. cbn in H.
    apply digit_digitValue in Hc as [<- Hd].
    apply IH in H as (n & Hn & -> & ->).
    rewrite Nat2Z.inj_succ, Z.pow_succ_r by lia.
    set (P := 10 ^ Z.of_nat w) in *.
    exists (d * P + n). split; [nia|]. split; [lia|].
    by rewrite digits_cons.
Qed.

Lemma readDigits_inv0 w s v r :
  readDigits w 0 s = Some (v, r) ->
  0 <= v < 10 ^ Z.of_nat w /\ s = digits w v ++ r.
Proof.
  intros (n & Hn & -> & ->)%readDigits_inv. by rewrite Z.mul_0_l, Z.add_0_l.
Qed.

Lemma monthStart_end y m :
  0 <= m <= 11 -> monthStart (leapDays y) m + DaysInMonth y m <= 365 + leapDays y.
Proof.
  intros Hm. destruct (leapDays_cases y) as [E|E]; unfold DaysInMonth; rewrite E;
    month_cases m; cbn; lia.
Qed.

(** The fields of the midnight of a day of the calendar are its year,
    month and day. *)
Lemma MakeDay_valid y m d :
  0 <= m <= 11 -> 1 <= d <= DaysInMonth y m ->
  let t := MakeDay y m d * msPerDay in
  Day t = MakeDay y m d
  /\ YearFromTime t = y /\ MonthFromTime t = m /\ DateFromTime t = d.
Proof.
  intros Hm Hd t.
  assert (Hday : Day t = MakeDay y m d) by (subst t; unfold Day, msPerDay; zdiv).
  split; [done|].
  pose proof (MakeDay_first y m) as Hfirst. cbv zeta in Hfirst.
  rewrite Z.div_small, Z.mod_small, Z.add_0_r in Hfirst by lia.
  pose proof (monthStart_end y m Hm) as Hlast.
  pose proof (monthStart_range (leapDays y) m) as Hstart.
  assert (Hl : 0 <= leapDays y <= 1) by (destruct (leapDays_cases y); lia).
  specialize (Hstart Hl).
  assert (Hmake : MakeDay y m d = DayFromYear y + monthStart (leapDays y) m + d - 1).
  { unfold MakeDay. by rewrite Z.div_small, Z.mod_small, Z.add_0_r by lia. }
  assert (Hy : YearFromTime t = y).
  { unfold YearFromTime. rewrite Hday, Hmake. apply YearFromDay_unique.
    rewrite DayFromYear_succ, DaysInYear_leapDays. lia. }
  assert (Hdwy : DayWithinYear t = monthStart (leapDays y) m + d - 1).
  { unfold DayWithinYear. rewrite Hy, Hday, Hmake. lia. }
  assert (Hmonth : MonthFromTime t = m).
  { unfold MonthFromTime, InLeapYear. rewrite Hy, Hdwy.
    clear Hstart Hlast Hmake Hdwy Hfirst.
    destruct (leapDays_cases y) as [E|E]; unfold DaysInMonth in Hd; rewrite E in *;
      month_cases m; cbn in Hd |- *; unfold monthOfDay; ltb_cases; lia. }
  split; [done|]. split; [done|].
  unfold DateFromTime, InLeapYear. rewrite Hmonth, Hy, Hdwy. lia.
Qed.

(** A parsed [YYYY-MM-DD] string is the ISO date of the time value it
    denotes. *)
Lemma parseDateOnly_canonical s t :
  length s = 10%nat -> parseDateOnly s = Some t -> isoDate t = s.
Proof.
  intros Hl Hp.
  destruct (parseDateOnly_inv s t Hp) as (y & m & d & Hread & Hm & Hd & -> & _).
  pose proof (readDateOnly_spec s y m d Hread) as (_ & _ & [[Hy _]|[_ ?]]); [|lia].
  destruct (MakeDay_valid y (m - 1) d ltac:(lia) Hd) as (_ & Ey & Em & Ed).
  unfold isoDate. rewrite Ey, Em, Ed. replace (m - 1 + 1) with m by lia.
  clear Hp Ey Em Ed Hm Hd.
  unfold readDateOnly in Hread.
  destruct (readYear s) as [[y' s1]|] eqn:Eyr; [|done]. cbn -[readDigits] in Hread.
  destruct (expect 45 s1) as [s2|] eqn:E1; [|done]. cbn -[readDigits] in Hread.
  destruct (readDigits 2 0 s2) as [[m' s3]|] eqn:Emo; [|done]. cbn -[readDigits] in Hread.
  destruct (expect 45 s3) as [s4|] eqn:E2; [|done]. cbn -[readDigits] in Hread.
  destruct (readDigits 2 0 s4) as [[d' s5]|] eqn:Eda; [|done]. cbn -[readDigits] in Hread.
  destruct s5; [|done].
  assert (y' = y /\ m' = m /\ d' = d) as (-> & -> & ->) by (split_and!; congruence).
  clear Hread.
  apply expect_spec in E1 as ->. apply expect_spec in E2 as ->.
  apply readDigits_inv0 in Emo as (_ & ->).
  apply readDigits_inv0 in Eda as (_ & Hs4).
  rewrite app_nil_r in Hs4. subst s4.
  assert (Hrest : length (45%N :: digits 2 m ++ 45%N :: digits 2 d) = 6%nat).
  { cbn [length]. rewrite length_app. cbn [length]. by rewrite !length_digits. }
  change (js "-") with [45%N]. cbn [app].
  unfold readYear in Eyr. destruct s as [|c s']; [done|].
  cbn [length] in Hl.
  destruct (c =? 43)%N eqn:E43.
  { apply readDigits_spec in Eyr as [_ Hlen]. rewrite Hrest in Hlen. lia. }
  destruct (c =? 45)%N eqn:E45.
  { destruct (readDigits 6 0 s') as [[v r']|] eqn:E6; [|done].
    cbn [mbind option_bind] in Eyr. destruct (v =? 0); [done|].
    assert (r' = 45%N :: digits 2 m ++ 45%N :: digits 2 d) as -> by congruence.
    apply readDigits_spec in E6 as [_ Hlen]. rewrite Hrest in Hlen. lia. }
  apply readDigits_inv0 in Eyr as (_ & ->).
  unfold yearString.
  destruct (Z.leb_spec 0 y); [|lia].
  destruct (Z.leb_spec y 9999); [|lia]. done.
Qed.

Lemma length_yearString y :
  length (yearString y) = if (0 <=? y) && (y <=? 9999) then 4%nat else 7%nat.
Proof.
  unfold yearString. destruct (_ && _); [apply length_digits|].
  rewrite length_app, length_digits. by destruct (y <? 0).
Qed.

Lemma length_isoDate t :
  length (isoDate t)
  = if (0 <=? YearFromTime t) && (YearFromTime t <=? 9999) then 10%nat else 13%nat.
Proof.
  unfold isoDate. rewrite !length_app, !length_digits, length_yearString.
  change (length (js "-")) with 1%nat. destruct (_ && _); lia.
Qed.

(** The days near a day after the year 100 are after the year 99. *)
Lemma after_year_100 t n' :
  100 < YearFromTime t -> Day t - 300 <= n' -> ¬ (0 <= YearFromDay n' <= 99).
Proof.
  intros Hy Hn'.
  pose proof (YearFromDay_spec (Day t)) as [Hs _]. fold (YearFromTime t) in Hs.
  pose proof (DayFromYear_mono 101 (YearFromTime t) ltac:(lia)).
  assert (DayFromYear 101 = DayFromYear 100 + 365) by reflexivity.
  pose proof (YearFromDay_ge n' 100 ltac:(lia)). lia.
Qed.

(** The local day of midnight UTC of day [n]: day [n] at or east of UTC,
    the day before west of UTC. *)
Lemma localDay_of_midnight tza n :
  - msPerDay < tza < msPerDay ->
  Day (LocalTime tza (n * msPerDay)) = if 0 <=? tza then n else n - 1.
Proof.
  intros Htz. destruct (Z.leb_spec 0 tza); unfold Day, LocalTime, msPerDay in *; zdiv.
Qed.

(** X6. For every valid date whose local year is not one of 0 to 99 and
    whose local day starts inside the range of time values, in every time
    zone: [formatDateToYYYYMMDD] returns a string that parses to midnight
    UTC of the local calendar day of the date, so the UTC year, month and
    day of the parsed string are the local year, month and day of the
    date. *)
Theorem format_then_parse tza t :
  ¬ (0 <= YearFromTime (LocalTime tza t) <= 99) ->
  Z.abs (Day (LocalTime tza t) * msPerDay) <= maxTime ->
  exists s,
    formatDateToYYYYMMDD tza (Some t) = Normal s
    /\ s = isoDate (Day (LocalTime tza t) * msPerDay)
    /\ newDate_string s = Some (Day (LocalTime tza t) * msPerDay)
    /\ getFullYear 0 (newDate_string s) = getFullYear tza (Some t)
    /\ getMonth 0 (newDate_string s) = getMonth tza (Some t)
    /\ getDate 0 (newDate_string s) = getDate tza (Some t).
Proof.
  intros Hy Hu.
  set (u := Day (LocalTime tza t) * msPerDay) in *.
  assert (Eday : Day u = Day (LocalTime tza t)).
  { subst u. unfold Day at 1, msPerDay. zdiv. }
  assert (Hp : newDate_string (isoDate u) = Some u).
  { unfold newDate_string, isoDate. rewrite parseDateOnly_isoDate; rewrite Eday; done. }
  exists (isoDate u). rewrite Hp.
  split; [by apply formatDateToYYYYMMDD_eq|]. split; [done|]. split; [done|].
  destruct (fields_localDay tza t) as (-> & -> & ->). done.
Qed.

(** 2024-06-12 20:00 UTC, five and a half hours east of UTC: the local
    day is 2024-06-13. *)
Lemma format_then_parse_witness :
  exists s,
    formatDateToYYYYMMDD 19800000 (Some 1718222400000) = Normal s
    /\ newDate_string s = Some (19887 * msPerDay)
    /\ getDate 0 (newDate_string s) = getDate 19800000 (Some 1718222400000).
Proof.
  destruct (format_then_parse 19800000 1718222400000)
    as (s & Hs & _ & Hp & _ & _ & Hd).
  - vm_compute. intros [_ H]. by apply H.
  - vm_compute. discriminate.
  - exists s. split_and!; [exact Hs|exact Hp|exact Hd].
Defined.

(** X7. Two valid dates, each in its own time zone, outside the local
    years 0 to 99 and inside the range of time values, have the same
    formatted date exactly when they lie on the same local calendar day:
    the time of day and the zone do not show in the string, and different
    days never share a string. *)
Theorem format_same_day tza1 t1 tza2 t2 :
  ¬ (0 <= YearFromTime (LocalTime tza1 t1) <= 99) ->
  Z.abs (Day (LocalTime tza1 t1) * msPerDay) <= maxTime ->
  ¬ (0 <= YearFromTime (LocalTime tza2 t2) <= 99) ->
  Z.abs (Day (LocalTime tza2 t2) * msPerDay) <= maxTime ->
  formatDateToYYYYMMDD tza1 (Some t1) = formatDateToYYYYMMDD tza2 (Some t2)
  <-> Day (LocalTime tza1 t1) = Day (LocalTime tza2 t2).
Proof.
  intros Hy1 Hu1 Hy2 Hu2. split.
  - intros Heq.
    destruct (format_parse_roundtrip tza1 t1 Hy1 Hu1) as (s1 & Hs1 & Hp1 & _).
    destruct (format_parse_roundtrip tza2 t2 Hy2 Hu2) as (s2 & Hs2 & Hp2 & _).
    rewrite Hs1, Hs2 in Heq. injection Heq as ->.
    rewrite Hp1 in Hp2. injection Hp2 as Hp2. unfold msPerDay in Hp2. lia.
  - intros Heq.
    by rewrite (formatDateToYYYYMMDD_localDay tza1), (formatDateToYYYYMMDD_localDay tza2), Heq.
Qed.

(** 23:00 UTC of 2024-06-12 seen from UTC+2 and 03:00 UTC of 2024-06-13
    seen from UTC-2 are not the same local day. *)
Lemma format_same_day_witness :
  (formatDateToYYYYMMDD 7200000 (Some 1718233200000)
   = formatDateToYYYYMMDD (-7200000) (Some 1718247600000))
  <-> Day (LocalTime 7200000 1718233200000) = Day (LocalTime (-7200000) 1718247600000).
Proof.
  apply format_same_day.
  - vm_compute. intros [_ H]. by apply H.
  - vm_compute. discriminate.
  - vm_compute. intros [_ H]. by apply H.
  - vm_compute. discriminate.
Defined.

(** X8. For every valid date in a local year from 100 to 9999,
    [formatDateToYYYYMMDD] does not throw and returns ten code units; in
    a local year outside 0 to 9999 that starts inside the range of time
    values it returns thirteen, the year being written with a sign and six
    digits. *)
Theorem formatted_date_length tza t :
  ¬ (0 <= YearFromTime (LocalTime tza t) <= 99) ->
  Z.abs (Day (LocalTime tza t) * msPerDay) <= maxTime ->
  exists s,
    formatDateToYYYYMMDD tza (Some t) = Normal s
    /\ length s = if (0 <=? YearFromTime (LocalTime tza t))
                     && (YearFromTime (LocalTime tza t) <=? 9999)
                  then 10%nat else 13%nat.
Proof.
  intros Hy Hu.
  set (u := Day (LocalTime tza t) * msPerDay) in *.
  assert (Eday : Day u = Day (LocalTime tza t)).
  { subst u. unfold Day at 1, msPerDay. zdiv. }
  exists (isoDate u). split; [by apply formatDateToYYYYMMDD_eq|].
  rewrite length_isoDate. destruct (fields_of_Day _ _ Eday) as (-> & _). done.
Qed.

(** The first day of the year 10000 has a formatted date of thirteen code
    units. *)
Lemma formatted_date_length_witness :
  exists s,
    formatDateToYYYYMMDD 0 (Some 253402300800000) = Normal s
    /\ s = js "+010000-01-01" /\ length s = 13%nat.
Proof.
  destruct (formatted_date_length 0 253402300800000) as (s & Hs & Hl).
  - vm_compute. intros [_ H]. by apply H.
  - vm_compute. discriminate.
  - exists s. split; [exact Hs|]. split; [|exact Hl].
    assert (H : formatDateToYYYYMMDD 0 (Some 253402300800000)
                = Normal (js "+010000-01-01")) by (vm_compute; reflexivity).
    rewrite Hs in H. by injection H.
Defined.

(** X9. For every [YYYY-MM-DD] string of a day after the year 100:
    at or east of UTC, parsing it with [new Date] and formatting the date
    gives the string back; west of UTC it gives another string, that of
    the day before. *)
Theorem parse_then_format tza s t :
  length s = 10%nat -> newDate_string s = Some t ->
  - msPerDay < tza < msPerDay -> 100 < YearFromTime t ->
  (0 <= tza -> formatDateToYYYYMMDD tza (newDate_string s) = Normal s)
  /\ (tza < 0 ->
      exists s',
        formatDateToYYYYMMDD tza (newDate_string s) = Normal s'
        /\ s' <> s /\ newDate_string s' = Some (t - msPerDay)).
Proof.
  intros Hl Ht Htz Hy.
  destruct (parseDateOnly_YYYYMMDD s t Hl Ht) as (n & Hn & Hr).
  assert (Hday : Day t = n) by (subst t; unfold Day, msPerDay; zdiv).
  pose proof (localDay_of_midnight tza n Htz) as Hlocal. rewrite <- Hn in Hlocal.
  assert (Hfmt : formatDateToYYYYMMDD tza (Some t)
                 = Normal (isoDate (Day (LocalTime tza t) * msPerDay))).
  { apply formatDateToYYYYMMDD_eq.
    - apply (after_year_100 t); [done|]. rewrite Hlocal, Hday.
      destruct (0 <=? tza); lia.
    - rewrite Hlocal. clear -Hr. destruct (0 <=? tza); unfold msPerDay, maxTime; lia. }
  rewrite Ht, Hfmt, Hlocal. split.
  - intros H0. rewrite (proj2 (Z.leb_le _ _) H0), <- Hn.
    f_equal. by apply parseDateOnly_canonical.
  - intros H0. destruct (Z.leb_spec 0 tza); [lia|].
    assert (Hp : newDate_string (isoDate ((n - 1) * msPerDay)) = Some (t - msPerDay)).
    { assert (Ed : Day ((n - 1) * msPerDay) = n - 1) by (unfold Day, msPerDay; zdiv).
      unfold newDate_string, isoDate. rewrite parseDateOnly_isoDate; rewrite Ed.
      - f_equal. lia.
      - clear -Hr. unfold msPerDay, maxTime. lia. }
    eexists. split; [done|]. split; [|done].
    intros Heq. rewrite Heq, Ht in Hp. injection Hp as Hp. unfold msPerDay in Hp. lia.
Qed.

(** "2024-06-12": itself two hours east of UTC, "2024-06-11" five hours
    west of UTC. *)
Lemma parse_then_format_witness :
  formatDateToYYYYMMDD 7200000 (newDate_string (js "2024-06-12"))
  = Normal (js "2024-06-12")
  /\ exists s',
       formatDateToYYYYMMDD (-18000000) (newDate_string (js "2024-06-12")) = Normal s'
       /\ s' <> js "2024-06-12".
Proof.
  split.
  - apply (parse_then_format 7200000 (js "2024-06-12") 1718150400000);
      [reflexivity|vm_compute; reflexivity|unfold msPerDay; lia
      |vm_compute; reflexivity|lia].
  - destruct (parse_then_format (-18000000) (js "2024-06-12") 1718150400000)
      as [_ Hwest];
      [reflexivity|vm_compute; reflexivity|unfold msPerDay; lia
      |vm_compute; reflexivity|].
    destruct (Hwest ltac:(lia)) as (s' & Hs' & Hne & _).
    exists s'. split; [exact Hs'|exact Hne].
Defined.

(** * The week window and the navigation, day by day *)

Lemma Day_of_midnight n : Day (n * msPerDay) = n.
Proof. unfold Day, msPerDay. zdiv. Qed.

(** A parsed date-only string denotes midnight UTC. *)
Lemma parseDateOnly_midnight s t : parseDateOnly s = Some t -> t = Day t * msPerDay.
Proof.
  intros (y & m & d & _ & _ & _ & -> & _)%parseDateOnly_inv.
  by rewrite Day_of_midnight.
Qed.

(** The week window of a reference date that names day [n]: seven
    midnights UTC from day [weekStart tza n] on. *)
Lemma week_of_midnight tza s n :
  newDate_string s = Some (n * msPerDay) ->
  Z.abs n <= 99999992 -> - msPerDay < tza < msPerDay ->
  weekDatesOf tza s = (λ i, Some ((weekStart tza n + i) * msPerDay)) <$> seqZ 0 7.
Proof.
  intros Ht Hn Htz.
  set (c := n * msPerDay + 1 * msPerDay).
  assert (Hc : correctedDateOf tza s = Some c).
  { rewrite (correctedDateOf_eq tza s _ Ht). apply TimeClip_Some.
    subst c. clear -Hn. unfold msPerDay, maxTime. lia. }
  pose proof (daysSinceMonday_range (LocalTime tza c)) as Hk.
  assert (Hwd : WeekDay (LocalTime tza c)
                = ((if 0 <=? tza then n else n - 1) + 1 + 4) mod 7).
  { unfold WeekDay. subst c. rewrite Day_LocalTime_add, localDay_of_midnight by done.
    done. }
  set (k := daysSinceMonday (WeekDay (LocalTime tza c))) in *.
  assert (Hm : c - k * msPerDay = weekStart tza n * msPerDay).
  { unfold weekStart. cbv zeta. rewrite <- Hwd. fold k. subst c. lia. }
  assert (HW : n - 5 <= weekStart tza n <= n + 1).
  { assert (weekStart tza n = n + 1 - k) by (subst c; unfold msPerDay in Hm; lia). lia. }
  unfold weekDatesOf, startOfWeekOf. rewrite Hc, getStartOfWeek_eq. fold k.
  cbn [fst]. rewrite Hm, TimeClip_Some
    by (clear -Hn HW; unfold msPerDay, maxTime; lia).
  rewrite generateWeekDates_eq. apply list_fmap_ext.
  intros _ i Hi%list_elem_of_lookup_2%elem_of_seqZ.
  rewrite TimeClip_Some by (clear -Hn HW Hi; unfold msPerDay, maxTime; lia).
  f_equal. lia.
Qed.


Lemma weekStart_range tza n : n - 5 <= weekStart tza n <= n + 1.
Proof.
  unfold weekStart. cbv zeta. unfold daysSinceMonday.
  destruct (0 <=? tza); ltb_cases; zdiv.
Qed.

(** What [navigateWeek] does to a reference date that names day [n]. *)
Lemma navigateWeek_midnight tza s n direction :
  newDate_string s = Some (n * msPerDay) ->
  Z.abs n <= 99999992 -> - msPerDay < tza < msPerDay ->
  let n' := (if 0 <=? tza then n else n - 1)
            + (if decide (direction = js "next") then 7 else -7) in
  ¬ (0 <= YearFromDay n' <= 99) ->
  run (navigateWeek tza s direction)
  = (Normal (), [SetSelectedDate (isoDate (n' * msPerDay))])
  /\ newDate_string (isoDate (n' * msPerDay)) = Some (n' * msPerDay).
Proof.
  intros Ht Hn Htz n' Hy.
  set (k := if decide (direction = js "next") then 7 else -7) in *.
  assert (Hk : -7 <= k <= 7) by (subst k; case_decide; lia).
  set (t2 := n * msPerDay + k * msPerDay).
  assert (Hday : Day (LocalTime tza t2) = n').
  { subst t2 n'. by rewrite Day_LocalTime_add, localDay_of_midnight. }
  assert (Hn' : Z.abs (n' * msPerDay) <= maxTime).
  { subst n'. clear -Hn Hk. destruct (0 <=? tza); unfold msPerDay, maxTime; lia. }
  assert (Hfmt : formatDateToYYYYMMDD tza (Some t2) = Normal (isoDate (n' * msPerDay))).
  { rewrite <- Hday. apply formatDateToYYYYMMDD_eq.
    - unfold YearFromTime. by rewrite Hday.
    - by rewrite Hday. }
  split.
  - pose proof (setDate_getDate tza (n * msPerDay) k) as Hset. fold t2 in Hset.
    rewrite (TimeClip_Some t2) in Hset
      by (subst t2; clear -Hn Hk; unfold msPerDay, maxTime; lia).
    unfold run, navigateWeek. rewrite Ht. subst k. rewrite Hset. by rewrite Hfmt.
  - unfold newDate_string, isoDate.
    rewrite parseDateOnly_isoDate; rewrite Day_of_midnight; done.
Qed.

(** A ten-character reference date after the year 100 names a day: it is
    midnight UTC of that day, and it is the canonical spelling of it. *)
Lemma reference_date_day s t :
  length s = 10%nat -> newDate_string s = Some t ->
  t = Day t * msPerDay /\ -719528 <= Day t <= 2932897 /\ isoDate t = s.
Proof.
  intros Hl Ht.
  destruct (parseDateOnly_YYYYMMDD _ t Hl Ht) as (n & Hn & Hr).
  assert (Day t = n) as -> by (subst t; apply Day_of_midnight).
  split; [done|]. split; [done|]. by apply parseDateOnly_canonical.
Qed.

Lemma YearFromTime_midnight n : YearFromTime (n * msPerDay) = YearFromDay n.
Proof. unfold YearFromTime. by rewrite Day_of_midnight. Qed.

Lemma newDate_string_isoDate n :
  Z.abs (n * msPerDay) <= maxTime ->
  newDate_string (isoDate (n * msPerDay)) = Some (n * msPerDay).
Proof.
  intros Hn. unfold newDate_string, isoDate.
  rewrite parseDateOnly_isoDate; rewrite Day_of_midnight; done.
Qed.


(** The keys of the week window of a reference date that names day [n]. *)
Lemma week_keys_of_midnight tza s n :
  newDate_string s = Some (n * msPerDay) ->
  Z.abs n <= 99999992 -> - msPerDay < tza < msPerDay ->
  100 < YearFromDay n ->
  formatDateToYYYYMMDD tza <$> weekDatesOf tza s
  = (λ i, Normal (isoDate ((weekStart tza n + (if 0 <=? tza then 0 else -1) + i)
                           * msPerDay))) <$> seqZ 0 7.
Proof.
  intros Ht Hn Htz Hy.
  rewrite (week_of_midnight tza s n Ht Hn Htz), <- list_fmap_compose.
  apply list_fmap_ext. intros _ i Hi%list_elem_of_lookup_2%elem_of_seqZ.
  pose proof (weekStart_range tza n) as HW.
  cbn [compose].
  assert (Hday : Day (LocalTime tza ((weekStart tza n + i) * msPerDay))
                 = weekStart tza n + (if 0 <=? tza then 0 else -1) + i).
  { rewrite localDay_of_midnight by done. destruct (0 <=? tza); lia. }
  rewrite <- Hday. apply formatDateToYYYYMMDD_eq.
  - unfold YearFromTime. apply (after_year_100 (n * msPerDay)).
    + by rewrite YearFromTime_midnight.
    + rewrite Day_of_midnight, Hday. destruct (0 <=? tza); lia.
  - rewrite Hday. clear -Hn HW Hi. destruct (0 <=? tza); unfold msPerDay, maxTime; lia.
Qed.

(** X10.  One click on "Next Week" or "Previous Week", for a ten-character
    reference date after the year 100: the new reference date is the
    canonical spelling of the day seven days later or earlier at or east
    of UTC, and of the day before that one west of UTC; it is a date
    string that parses to that day. *)
Theorem navigateWeek_step tza s t direction :
  length s = 10%nat -> newDate_string s = Some t ->
  - msPerDay < tza < msPerDay -> 100 < YearFromTime t ->
  let days := (if decide (direction = js "next") then 7 else -7)
              + (if 0 <=? tza then 0 else -1) in
  run (navigateWeek tza s direction)
  = (Normal (), [SetSelectedDate (isoDate (t + days * msPerDay))])
  /\ newDate_string (isoDate (t + days * msPerDay)) = Some (t + days * msPerDay).
Proof.
  intros Hl Ht Htz Hy days.
  destruct (reference_date_day s t Hl Ht) as (Hn & Hr & _).
  set (n := Day t) in *. rewrite Hn in Ht.
  destruct (navigateWeek_midnight tza s n direction Ht ltac:(lia) Htz) as [Hrun Hp].
  { apply (after_year_100 t); [done|]. fold n.
    destruct (0 <=? tza); case_decide; lia. }
  replace (t + days * msPerDay)
    with (((if 0 <=? tza then n else n - 1)
           + (if decide (direction = js "next") then 7 else -7)) * msPerDay).
  - done.
  - rewrite Hn. subst days. destruct (0 <=? tza); lia.
Qed.

Lemma navigateWeek_step_witness :
  let s := js "2024-02-26" in
  let t := 19779 * msPerDay in
  (length s = 10%nat /\ newDate_string s = Some t
   /\ - msPerDay < -18000000 < msPerDay /\ 100 < YearFromTime t)
  /\ run (navigateWeek (-18000000) s (js "next"))
     = (Normal (), [SetSelectedDate (js "2024-03-03")])
  /\ newDate_string (js "2024-03-03") = Some (19785 * msPerDay).
Proof.
  pose proof (navigateWeek_step (-18000000) (js "2024-02-26") (19779 * msPerDay)
                (js "next") eq_refl ltac:(by vm_compute) ltac:(by vm_compute)
                ltac:(by vm_compute)) as H.
  split; [by vm_compute|]. exact H.
Defined.

(** X11.  At or east of UTC, "Next Week" followed by "Previous Week"
    gives back the state it started from, reference date included, for a
    ten-character reference date after the year 100. *)
Theorem next_then_previous_east tza st t :
  length (selectedDate st) = 10%nat ->
  newDate_string (selectedDate st) = Some t ->
  0 <= tza < msPerDay -> 100 < YearFromTime t ->
  nextThenPrevious tza st = Normal st.
Proof.
  intros Hl Ht Htz Hy.
  destruct (reference_date_day _ t Hl Ht) as (Hn & Hr & Hs).
  set (n := Day t) in *. rewrite Hn in Ht.
  assert (Hz : - msPerDay < tza < msPerDay) by (unfold msPerDay in *; lia).
  assert (Hle : (0 <=? tza) = true) by (apply Z.leb_le; lia).
  destruct (navigateWeek_midnight tza _ n (js "next") Ht ltac:(lia) Hz) as [Hrun1 Hp1].
  { apply (after_year_100 t); [done|]. fold n. rewrite Hle, decide_True by done. lia. }
  rewrite Hle, decide_True in Hrun1, Hp1 by done.
  destruct (navigateWeek_midnight tza _ (n + 7) (js "previous") Hp1 ltac:(lia) Hz)
    as [Hrun2 _].
  { apply (after_year_100 t); [done|]. fold n.
    rewrite Hle, decide_False by apply previous_not_next. lia. }
  rewrite Hle, decide_False in Hrun2 by apply previous_not_next.
  replace (n + 7 + -7) with n in Hrun2 by lia.
  rewrite <- Hn, Hs in Hrun2.
  unfold nextThenPrevious, navigate, after. rewrite Hrun1. cbn.
  unfold after in *. cbn. rewrite Hrun2. cbn. by destruct st.
Qed.

Lemma next_then_previous_east_witness :
  let st := {| selectedDate := js "2024-12-30"; newTask := js "milk";
               tasksByDate := ∅ |} in
  nextThenPrevious 3600000 st = Normal st.
Proof.
  apply (next_then_previous_east 3600000 _ (20087 * msPerDay));
    by vm_compute.
Defined.





(** X14.  The row of the reference date.  For a ten-character reference
    date after the year 100, the window has a row whose key is the
    reference date itself exactly when the time zone is west of UTC or the
    reference date is not a Sunday: at or east of UTC a Sunday is shown
    the week that starts the day after it. *)
Theorem window_has_selected_date tza s t :
  length s = 10%nat -> newDate_string s = Some t ->
  - msPerDay < tza < msPerDay -> 100 < YearFromTime t ->
  Normal s ∈ formatDateToYYYYMMDD tza <$> weekDatesOf tza s
  <-> tza < 0 \/ WeekDay t <> 0.
Proof.
  intros Hl Ht Htz Hy.
  destruct (reference_date_day _ t Hl Ht) as (Hn & Hr & Hs).
  unfold WeekDay. rewrite <- Hs at 1. clear Hs.
  set (n := Day t) in *. rewrite Hn in Ht, Hy |- *. rewrite YearFromTime_midnight in Hy.
  rewrite (week_keys_of_midnight tza s n Ht ltac:(lia) Htz Hy).
  pose proof (weekStart_range tza n) as HW.
  set (W := weekStart tza n + (if 0 <=? tza then 0 else -1)).
  assert (Hin : 0 <= n - W < 7 <-> tza < 0 \/ (n + 4) mod 7 <> 0).
  { subst W. unfold weekStart, daysSinceMonday in *. cbv zeta in *.
    destruct (Z.leb_spec 0 tza); ltb_cases; zdiv. }
  rewrite <- Hin, list_elem_of_fmap. split.
  - intros (i & Hi & Hr'%elem_of_seqZ).
    assert (Hp : newDate_string (isoDate (n * msPerDay))
                 = newDate_string (isoDate ((W + i) * msPerDay))) by congruence.
    rewrite !newDate_string_isoDate in Hp
      by (subst W; clear -Hr HW Hr'; destruct (0 <=? tza); unfold msPerDay, maxTime; lia).
    injection Hp as Hp. unfold msPerDay in Hp. lia.
  - intros Hr'. exists (n - W). split; [|apply elem_of_seqZ; lia].
    do 3 f_equal. lia.
Qed.

Lemma window_has_selected_date_witness :
  let s := js "2024-03-03" in
  (Normal s ∈ formatDateToYYYYMMDD 3600000 <$> weekDatesOf 3600000 s
   <-> 3600000 < 0 \/ WeekDay (19785 * msPerDay) <> 0)
  /\ Normal s ∉ formatDateToYYYYMMDD 3600000 <$> weekDatesOf 3600000 s.
Proof.
  pose proof (window_has_selected_date 3600000 (js "2024-03-03") (19785 * msPerDay)
                eq_refl ltac:(by vm_compute) ltac:(by vm_compute)
                ltac:(by vm_compute)) as H.
  split; [exact H|].
  intros [Hw | Hw]%H; [lia | by apply Hw].
Defined.

(** X15.  "Reset to Today" makes the reference date the canonical
    spelling of the local day of the current time (after the year 100),
    whatever the reference date was; the window then has a row for today
    exactly when the time zone is west of UTC or today is not a Sunday. *)
Theorem resetToToday_today tza now :
  Z.abs now <= maxTime - 9 * msPerDay -> - msPerDay < tza < msPerDay ->
  100 < YearFromTime (LocalTime tza now) ->
  let today := Day (LocalTime tza now) * msPerDay in
  run (resetToToday tza now) = (Normal (), [SetSelectedDate (isoDate today)])
  /\ newDate_string (isoDate today) = Some today
  /\ (Normal (isoDate today)
        ∈ formatDateToYYYYMMDD tza <$> weekDatesOf tza (isoDate today)
      <-> tza < 0 \/ WeekDay today <> 0).
Proof.
  intros Hnow Htz Hy today.
  set (n := Day (LocalTime tza now)) in *.
  assert (Hn : Z.abs n <= 99999992).
  { subst n. clear -Hnow Htz. unfold Day, LocalTime, maxTime, msPerDay in *. zdiv. }
  assert (Hmax : Z.abs (n * msPerDay) <= maxTime).
  { clear -Hn. unfold msPerDay, maxTime. lia. }
  pose proof (newDate_string_isoDate n Hmax) as Hp.
  split; [|split; [exact Hp|]].
  - unfold run, resetToToday.
    rewrite formatDateToYYYYMMDD_eq; [done| |done].
    unfold YearFromTime in *. lia.
  - subst today. unfold WeekDay. rewrite Day_of_midnight.
    assert (Hy' : 100 < YearFromDay n) by exact Hy.
    rewrite (week_keys_of_midnight tza _ n Hp Hn Htz Hy').
    pose proof (weekStart_range tza n) as HW.
    set (W := weekStart tza n + (if 0 <=? tza then 0 else -1)).
    assert (Hin : 0 <= n - W < 7 <-> tza < 0 \/ (n + 4) mod 7 <> 0).
    { subst W. unfold weekStart, daysSinceMonday in *. cbv zeta in *.
      destruct (Z.leb_spec 0 tza); ltb_cases; zdiv. }
    rewrite <- Hin, list_elem_of_fmap. split.
    + intros (i & Hi & Hr'%elem_of_seqZ).
      assert (Hq : newDate_string (isoDate (n * msPerDay))
                   = newDate_string (isoDate ((W + i) * msPerDay))) by congruence.
      rewrite !newDate_string_isoDate in Hq
        by (subst W; clear -Hn HW Hr'; destruct (0 <=? tza); unfold msPerDay, maxTime; lia).
      injection Hq as Hq. unfold msPerDay in Hq. lia.
    + intros Hr'. exists (n - W). split; [|apply elem_of_seqZ; lia].
      do 3 f_equal. lia.
Qed.

Lemma resetToToday_today_witness :
  let now := 19785 * msPerDay + 79200000 in
  let today := 19785 * msPerDay in
  run (resetToToday (-18000000) now)
  = (Normal (), [SetSelectedDate (js "2024-03-03")])
  /\ newDate_string (js "2024-03-03") = Some today
  /\ (Normal (js "2024-03-03")
        ∈ formatDateToYYYYMMDD (-18000000) <$> weekDatesOf (-18000000) (js "2024-03-03")
      <-> -18000000 < 0 \/ WeekDay today <> 0).
Proof.
  apply (resetToToday_today (-18000000) (19785 * msPerDay + 79200000));
    by vm_compute.
Defined.

(** * The handlers and the state, beyond one successful call *)

Lemma run_add_invalid tza api newTask date e :
  formatDateToYYYYMMDD tza date = Throw e ->
  (run (handleAddTask tza api newTask date)).2 = [].
Proof.
  intros He. unfold run, handleAddTask.
  destruct (truthy (trim newTask)); [|done]. by rewrite He.
Qed.

(** What an add can do to the state. *)
Lemma react_add_cases tza api st date :
  react tza api st (ClickAdd date) = Normal st
  \/ exists d T,
       react tza api st (ClickAdd date)
       = Normal {| selectedDate := selectedDate st; newTask := [];
                   tasksByDate :=
                     <[d := default [] (tasksByDate st !! d) ++ [T]]> (tasksByDate st) |}.
Proof.
  unfold react. cbn [handlerOf].
  destruct (decide (blank (newTask st))) as [Hb|Hb].
  { left. unfold after. by rewrite (run_add_blank _ _ _ _ Hb). }
  destruct (formatDateToYYYYMMDD tza date) as [d|e] eqn:Hd.
  - destruct (addTask api [] {| data_name := newTask st; data_completed := false;
                                data_date := d |}) as [T|e] eqn:HT.
    + right. exists d, T. by apply after_add_fulfilled.
    + left. unfold after. by rewrite (run_add_rejected _ _ _ _ d e Hb Hd HT).
  - left. unfold after. by rewrite (run_add_invalid _ _ _ _ e Hd).
Qed.

(** The only way a state update fails. *)
Lemma react_Throw_inv tza api st a e :
  react tza api st a = Throw e ->
  e = TypeError
  /\ exists taskId d,
       tasksByDate st !! d = None
       /\ ((a = ClickToggle taskId d
            /\ exists T, toggleTaskCompletion api [] taskId = Fulfilled T)
           \/ (a = ClickDelete taskId d
               /\ deleteTask api [] taskId = Fulfilled ())).
Proof.
  destruct a as [value|date|taskId d|taskId d].
  - done.
  - destruct (react_add_cases tza api st date) as [-> | (d & T & ->)]; done.
  - unfold react, after. cbn [handlerOf]. rewrite run_toggle.
    destruct (toggleTaskCompletion api [] taskId) as [T|e'] eqn:HT; [|done].
    cbn. destruct (tasksByDate st !! d) eqn:Hd; [done|].
    intros [= <-]. split; [done|]. exists taskId, d. split; [done|]. left. eauto.
  - unfold react, after. cbn [handlerOf]. rewrite run_delete.
    destruct (deleteTask api [] taskId) as [[]|e'] eqn:HT; [|done].
    cbn. destruct (tasksByDate st !! d) eqn:Hd; [done|].
    intros [= <-]. split; [done|]. exists taskId, d. split; [done|]. by right.
Qed.

(** No handler removes a key or touches the reference date. *)
Lemma react_keeps_entries tza api st a st' :
  react tza api st a = Normal st' ->
  dom (tasksByDate st) ⊆ dom (tasksByDate st')
  /\ selectedDate st' = selectedDate st.
Proof.
  destruct a as [value|date|taskId d|taskId d].
  - intros [= <-]. done.
  - destruct (react_add_cases tza api st date) as [-> | (d & T & ->)];
      intros [= <-]; [done|]. cbn. split; [|done].
    rewrite dom_insert_L. set_tauto.
  - unfold react, after. cbn [handlerOf]. rewrite run_toggle.
    destruct (toggleTaskCompletion api [] taskId) as [T|e']; cbn;
      [|by intros [= <-]].
    destruct (tasksByDate st !! d); [|done]. cbn. intros [= <-]. cbn.
    split; [|done]. rewrite dom_insert_L. set_tauto.
  - unfold react, after. cbn [handlerOf]. rewrite run_delete.
    destruct (deleteTask api [] taskId) as [[]|e']; cbn; [|by intros [= <-]].
    destruct (tasksByDate st !! d); [|done]. cbn. intros [= <-]. cbn.
    split; [|done]. rewrite dom_insert_L. set_tauto.
Qed.

(** X16.  After a successful toggle under a date that has a list, the
    list has the same length; at every position a task with the toggled
    identifier is replaced by the task the service returned, whatever it
    is, and every other task stays; a list without that identifier is
    unchanged; the other dates, the input and the reference date are
    unchanged. *)
Theorem toggle_replaces_task api st taskId d tasks T :
  tasksByDate st !! d = Some tasks ->
  toggleTaskCompletion api [] taskId = Fulfilled T ->
  exists st' tasks',
    after st (handleToggleCompletion api taskId d) = Normal st'
    /\ tasksByDate st' !! d = Some tasks'
    /\ length tasks' = length tasks
    /\ (forall i task,
          tasks !! i = Some task ->
          tasks' !! i = Some (if decide (task_id task = taskId) then T else task))
    /\ (Forall (λ task, task_id task ≠ taskId) tasks -> tasks' = tasks)
    /\ (forall d', d' ≠ d -> tasksByDate st' !! d' = tasksByDate st !! d')
    /\ newTask st' = newTask st /\ selectedDate st' = selectedDate st.
Proof.
  intros Hd HT. unfold after. rewrite run_toggle, HT. cbn. rewrite Hd. cbn.
  eexists _, _. split; [reflexivity|]. cbn.
  split; [apply lookup_insert_eq|]. split; [apply length_fmap|].
  split; [|split; [|split; [|done]]].
  - intros i task Hi. by rewrite list_lookup_fmap, Hi.
  - intros Hall. clear -Hall. induction Hall as [|task l Hne _ IH]; [done|].
    rewrite fmap_cons, decide_False by done. by rewrite IH.
  - intros d' Hne. by apply lookup_insert_ne.
Qed.

Lemma toggle_replaces_task_witness :
  let done2 := {| task_id := 2; task_name := js "Task"; task_completed := true;
                  task_date := js "2024-06-12" |} in
  let api := {| getTasksByDate := λ _ _, Fulfilled [];
                addTask := λ _ _, Rejected (Reason (js "no"));
                toggleTaskCompletion := λ _ _, Fulfilled done2;
                deleteTask := λ _ _, Fulfilled () |} in
  exists st',
    after (sampleState [] {[ js "2024-06-12" := [sampleTask 1; sampleTask 2; sampleTask 3] ]})
      (handleToggleCompletion api 2 (js "2024-06-12")) = Normal st'
    /\ tasksByDate st' !! js "2024-06-12" = Some [sampleTask 1; done2; sampleTask 3].
Proof.
  intros done2 api.
  destruct (toggle_replaces_task api
              (sampleState [] {[ js "2024-06-12" := [sampleTask 1; sampleTask 2; sampleTask 3] ]})
              2 (js "2024-06-12") [sampleTask 1; sampleTask 2; sampleTask 3] done2)
    as (st' & tasks' & H1 & H2 & Hl & H3 & _).
  - apply lookup_singleton_eq.
  - reflexivity.
  - exists st'. split; [exact H1|]. rewrite H2. f_equal.
    apply list_eq. intros [|[|[|i]]].
    + by rewrite (H3 0%nat (sampleTask 1)).
    + by rewrite (H3 1%nat (sampleTask 2)).
    + by rewrite (H3 2%nat (sampleTask 3)).
    + cbn. apply lookup_ge_None_2. rewrite Hl. cbn. lia.
Defined.

(** X17.  A state update fails in one way only: the answer of a
    successful toggle or delete is applied to a state with no list under
    the date of the click, and the error is a TypeError.  Typing, adding,
    a rejected call and a click on a date that has a list never fail. *)
Theorem react_throws_iff tza api st a e :
  react tza api st a = Throw e
  <-> e = TypeError
      /\ exists taskId d,
           tasksByDate st !! d = None
           /\ ((a = ClickToggle taskId d
                /\ exists T, toggleTaskCompletion api [] taskId = Fulfilled T)
               \/ (a = ClickDelete taskId d
                   /\ deleteTask api [] taskId = Fulfilled ())).
Proof.
  split; [apply react_Throw_inv|].
  intros (-> & taskId & d & Hd & [[-> [T HT]] | [-> HT]]);
    unfold react, after; cbn [handlerOf].
  - rewrite run_toggle, HT. cbn. by rewrite Hd.
  - rewrite run_delete, HT. cbn. by rewrite Hd.
Qed.

(** X18.  Whatever the user does and however the service answers, the
    handlers never remove a key from the state and never change the
    reference date: a date that has a list keeps one, a deleted task
    leaves its (possibly empty) list behind. *)
Theorem session_keeps_entries tza steps : forall st st',
  session tza st steps = Normal st' ->
  dom (tasksByDate st) ⊆ dom (tasksByDate st')
  /\ selectedDate st' = selectedDate st.
Proof.
  induction steps as [|[api a] steps IH]; intros st st' Hs.
  - by injection Hs as <-.
  - cbn [session] in Hs.
    destruct (react tza api st a) as [st1|e] eqn:Hr; [|done]. cbn in Hs.
    destruct (react_keeps_entries _ _ _ _ _ Hr) as [Hd1 Hs1].
    destruct (IH _ _ Hs) as [Hd2 Hs2].
    split; [by etrans|congruence].
Qed.

Lemma session_keeps_entries_witness :
  let st := sampleState (js "Buy milk") {[ js "2024-06-12" := [sampleTask 1] ]} in
  let steps := [(sampleService true, ClickDelete 1 (js "2024-06-12"));
                (sampleService true, ClickAdd (newDate_string (js "2024-06-13")))] in
  exists st',
    session 0 st steps = Normal st'
    /\ tasksByDate st' !! js "2024-06-12" = Some []
    /\ dom (tasksByDate st) ⊆ dom (tasksByDate st')
    /\ selectedDate st' = selectedDate st.
Proof.
  intros st steps.
  assert (Hs : session 0 st steps
               = Normal {| selectedDate := selectedDate st; newTask := [];
                           tasksByDate :=
                             <[js "2024-06-13" := [{| task_id := 7; task_name := js "Buy milk";
                                                      task_completed := false;
                                                      task_date := js "2024-06-13" |}]]>
                               (<[js "2024-06-12" := []]>
                                  {[ js "2024-06-12" := [sampleTask 1] ]}) |}).
  { by vm_compute. }
  eexists. split; [exact Hs|]. split.
  - cbn. rewrite lookup_insert_ne by (by vm_compute). apply lookup_insert_eq.
  - exact (session_keeps_entries 0 steps st _ Hs).
Defined.

(** X19.  Adding a task and then deleting it gives back the list the
    date had, when no task of that list shares the new identifier; the
    date keeps an entry, the empty list when it had none before, and the
    input is left cleared. *)
Theorem add_then_delete tza api1 api2 st date d T :
  ¬ blank (newTask st) ->
  formatDateToYYYYMMDD tza date = Normal d ->
  addTask api1 [] {| data_name := newTask st; data_completed := false;
                     data_date := d |} = Fulfilled T ->
  deleteTask api2 [] (task_id T) = Fulfilled () ->
  Forall (λ task, task_id task ≠ task_id T) (default [] (tasksByDate st !! d)) ->
  session tza st [(api1, ClickAdd date); (api2, ClickDelete (task_id T) d)]
  = Normal {| selectedDate := selectedDate st; newTask := [];
              tasksByDate := <[d := default [] (tasksByDate st !! d)]> (tasksByDate st) |}.
Proof.
  intros Hb Hd HT Hdel Hfresh. cbn [session].
  change (react tza api1 st (ClickAdd date))
    with (after st (handleAddTask tza api1 (newTask st) date)).
  rewrite (after_add_fulfilled _ _ _ _ d T Hb Hd HT). cbn [mbind Completion_bind].
  match goal with
  | |- context [react tza api2 ?s (ClickDelete ?i ?k)] =>
      change (react tza api2 s (ClickDelete i k))
        with (after s (handleDeleteTask api2 i k))
  end.
  unfold after. rewrite run_delete, Hdel. cbn.
  rewrite lookup_insert_eq. cbn. rewrite insert_insert_eq. do 2 f_equal.
  rewrite filter_app.
  assert (filter (λ task, task_id task ≠ task_id T) [T] = []) as ->.
  { rewrite filter_cons_False; [done|]. by intros H. }
  rewrite app_nil_r.
  assert (filter (λ task, task_id task ≠ task_id T) (default [] (tasksByDate st !! d))
          = default [] (tasksByDate st !! d)) as ->; [|done].
  clear -Hfresh. induction Hfresh as [|task l Hne _ IH]; [done|].
  rewrite filter_cons_True by done. by rewrite IH.
Qed.

Lemma add_then_delete_witness :
  let st := sampleState (js "Buy milk") ∅ in
  session 0 st [(sampleService true, ClickAdd (newDate_string (js "2024-06-12")));
                (sampleService true, ClickDelete 7 (js "2024-06-12"))]
  = Normal {| selectedDate := selectedDate st; newTask := [];
              tasksByDate := {[ js "2024-06-12" := [] ]} |}.
Proof.
  intros st.
  apply (add_then_delete 0 (sampleService true) (sampleService true) st
           (newDate_string (js "2024-06-12")) (js "2024-06-12")
           {| task_id := 7; task_name := js "Buy milk"; task_completed := false;
              task_date := js "2024-06-12" |}).
  - intros H. apply Forall_cons_1 in H as [H _]. vm_compute in H. discriminate.
  - by vm_compute.
  - reflexivity.
  - reflexivity.
  - constructor.
Defined.

(** * The effect and the render of a week *)

Lemma Forall2_format_keys tza (dates : list Date) keys :
  formatDateToYYYYMMDD tza <$> dates = Normal <$> keys ->
  Forall2 (λ date key, formatDateToYYYYMMDD tza date = Normal key) dates keys.
Proof.
  revert keys. induction dates as [|date dates IH]; intros [|key keys] H.
  - constructor.
  - discriminate.
  - discriminate.
  - injection H as H1 H2. constructor; [done|by apply IH].
Qed.

Lemma DateFromTime_Day t u : Day t = Day u -> DateFromTime t = DateFromTime u.
Proof.
  intros H. unfold DateFromTime, MonthFromTime, InLeapYear, DayWithinYear, YearFromTime.
  by rewrite H.
Qed.

(** The keys of a week from [monday] on are distinct. *)
Lemma isoDate_week_NoDup monday :
  Z.abs monday <= 99999992 ->
  NoDup ((λ i, isoDate ((monday + i) * msPerDay)) <$> seqZ 0 7).
Proof.
  intros Hm. apply NoDup_fmap_2_strong; [|apply NoDup_seqZ].
  intros i j Hi%elem_of_seqZ Hj%elem_of_seqZ Heq.
  assert (Hp : newDate_string (isoDate ((monday + i) * msPerDay))
               = newDate_string (isoDate ((monday + j) * msPerDay))) by congruence.
  rewrite !newDate_string_isoDate in Hp
    by (clear -Hm Hi Hj; unfold msPerDay, maxTime; lia).
  injection Hp as Hp. unfold msPerDay in Hp. lia.
Qed.

(** The week of a ten-character reference date after the year 100: its
    dates, their keys, and the Monday its keys start from. *)
Lemma week_of_selected_date tza s t :
  length s = 10%nat -> newDate_string s = Some t ->
  - msPerDay < tza < msPerDay -> 100 < YearFromTime t ->
  exists monday,
    let keys := (λ i, isoDate ((monday + i) * msPerDay)) <$> seqZ 0 7 in
    WeekDay (monday * msPerDay) = 1
    /\ Day t - 6 <= monday <= Day t + 1
    /\ NoDup keys
    /\ length (weekDatesOf tza s) = 7%nat
    /\ Forall2 (λ date key, formatDateToYYYYMMDD tza date = Normal key)
         (weekDatesOf tza s) keys
    /\ Forall2 (λ date i, getDate tza date = Some (DateFromTime ((monday + i) * msPerDay)))
         (weekDatesOf tza s) (seqZ 0 7).
Proof.
  intros Hl Ht Htz Hy.
  destruct (reference_date_day s t Hl Ht) as (Hn & Hr & _).
  set (n := Day t) in *. rewrite Hn in Ht, Hy. rewrite YearFromTime_midnight in Hy.
  pose proof (weekStart_range tza n) as HW.
  exists (weekStart tza n + (if 0 <=? tza then 0 else -1)). cbv zeta.
  split; [|split; [|split; [|split; [|split]]]].
  - unfold WeekDay. rewrite Day_of_midnight.
    unfold weekStart, daysSinceMonday. cbv zeta.
    destruct (0 <=? tza); ltb_cases; zdiv.
  - destruct (0 <=? tza); lia.
  - apply isoDate_week_NoDup. destruct (0 <=? tza); lia.
  - by rewrite (week_of_midnight tza s n Ht ltac:(lia) Htz), length_fmap, length_seqZ.
  - apply Forall2_format_keys.
    rewrite (week_keys_of_midnight tza s n Ht ltac:(lia) Htz Hy).
    by rewrite <- list_fmap_compose.
  - rewrite (week_of_midnight tza s n Ht ltac:(lia) Htz).
    apply Forall2_fmap_l, Forall_Forall2_diag, Forall_forall.
    intros i Hi%elem_of_seqZ. change (Some (DateFromTime (LocalTime tza ((weekStart tza n + i) * msPerDay)))
            = Some (DateFromTime ((weekStart tza n + (if 0 <=? tza then 0 else -1) + i)
                                  * msPerDay))).
    f_equal. apply DateFromTime_Day.
    rewrite localDay_of_midnight, Day_of_midnight by done. destruct (0 <=? tza); lia.
Qed.

(** X20.  The effect of a change of the reference date, for a
    ten-character reference date after the year 100: it asks the service
    for seven dates, one after the other, the canonical spellings of seven
    consecutive days from a Monday at most six days before and at most one
    day after the reference date; then it replaces [tasksByDate] by an
    object whose keys are among those seven, and leaves the input and the
    reference date alone. *)
Theorem useEffect_fetches_week tza api st t :
  length (selectedDate st) = 10%nat ->
  newDate_string (selectedDate st) = Some t ->
  - msPerDay < tza < msPerDay -> 100 < YearFromTime t ->
  exists monday log m,
    let keys := (λ i, isoDate ((monday + i) * msPerDay)) <$> seqZ 0 7 in
    WeekDay (monday * msPerDay) = 1
    /\ Day t - 6 <= monday <= Day t + 1
    /\ NoDup keys
    /\ run (useEffect tza api (selectedDate st))
       = (Normal (), log ++ [SetTasksByDate (SetValue m)])
    /\ requests log = GetTasksByDate <$> keys
    /\ Forall (λ e, ¬ isUpdate e) log
    /\ dom m ⊆ list_to_set keys
    /\ after st (useEffect tza api (selectedDate st))
       = Normal {| selectedDate := selectedDate st; newTask := newTask st;
                   tasksByDate := m |}.
Proof.
  intros Hl Ht Htz Hy.
  destruct (week_of_selected_date tza _ t Hl Ht Htz Hy)
    as (monday & Hmon & Hr & Hnd & _ & Hkeys & _).
  set (keys := (λ i, isoDate ((monday + i) * msPerDay)) <$> seqZ 0 7) in *.
  destruct (fetchLoop_spec tza api _ keys Hkeys ∅ []) as (log & Hrun & Hreq & Hno).
  cbn in Hrun.
  exists monday, log, (fetchedTasks api [] keys ∅). cbv zeta. fold keys.
  split; [done|]. split; [done|]. split; [done|]. split; [|split; [done|]].
  { unfold run, useEffect, fetchTasksForWeek. cbv [mbind Handler_bind emit].
    by rewrite Hrun. }
  split; [done|]. split.
  - etrans; [apply dom_fetchedTasks_subseteq|]. set_tauto.
  - unfold useEffect. by apply after_fetch.
Qed.

Lemma useEffect_fetches_week_witness :
  let st := sampleState (js "Buy milk") {[ js "2020-01-01" := [sampleTask 1] ]} in
  exists log m,
    run (useEffect 0 flakyService (selectedDate st))
    = (Normal (), log ++ [SetTasksByDate (SetValue m)])
    /\ requests log = GetTasksByDate <$> sampleKeys
    /\ after st (useEffect 0 flakyService (selectedDate st))
       = Normal {| selectedDate := selectedDate st; newTask := newTask st;
                   tasksByDate := m |}.
Proof.
  intros st.
  destruct (useEffect_fetches_week 0 flakyService st (19886 * msPerDay))
    as (monday & log & m & Hmon & Hr & _ & Hrun & Hreq & _ & _ & Hafter).
  - reflexivity.
  - by vm_compute.
  - by vm_compute.
  - by vm_compute.
  - exists log, m. split; [exact Hrun|]. split; [|exact Hafter].
    rewrite Hreq. rewrite Day_of_midnight in Hr.
    assert (monday = 19884) as ->; [|by vm_compute].
    unfold WeekDay in Hmon. rewrite Day_of_midnight in Hmon. zdiv.
Defined.

Lemma renderRows_spec tza st dates keys :
  Forall2 (λ date key, formatDateToYYYYMMDD tza date = Normal key) dates keys ->
  forall index,
  exists rows,
    renderRows tza st index dates = Normal rows
    /\ length rows = length dates
    /\ forall i row,
         rows !! i = Some row ->
         exists date key,
           dates !! i = Some date /\ keys !! i = Some key
           /\ row = {| row_key := index + i;
                       row_day := getDate tza date;
                       row_items :=
                         renderTask key <$> default [] (tasksByDate st !! key);
                       row_input := newTask st;
                       row_onChange := ChangeInput;
                       row_onAdd := ClickAdd date |}.
Proof.
  induction 1 as [|date key dates keys Hkey _ IH]; intros index.
  - exists []. by split_and!.
  - destruct (IH (S index)) as (rows & Hrows & Hlen & Hrow).
    cbn [renderRows]. unfold renderRow. rewrite Hkey. cbn [mbind Completion_bind].
    rewrite Hrows. cbn [mbind Completion_bind].
    eexists. split; [reflexivity|]. split; [by cbn; rewrite Hlen|].
    intros [|i] row Hi.
    + injection Hi as <-. exists date, key. by rewrite Nat.add_0_r.
    + destruct (Hrow i row Hi) as (date' & key' & Hd & Hk & ->).
      exists date', key'. split; [done|]. split; [done|].
      by rewrite Nat.add_succ_r.
Qed.


(** X21.  The rows of a render, for a ten-character reference date
    after the year 100: seven rows, keyed 0 to 6, for seven consecutive
    days from a Monday; each shows the day of the month, the tasks the
    state holds under the canonical spelling of its day, none when the
    state has no such key, and the one shared input text; its "Add Task"
    adds to the date of the row. *)
Theorem render_week tza st t :
  length (selectedDate st) = 10%nat ->
  newDate_string (selectedDate st) = Some t ->
  - msPerDay < tza < msPerDay -> 100 < YearFromTime t ->
  exists monday rows,
    WeekDay (monday * msPerDay) = 1
    /\ Day t - 6 <= monday <= Day t + 1
    /\ render tza st = Normal rows
    /\ length rows = 7%nat
    /\ forall (i : nat) row,
         rows !! i = Some row ->
         let day := (monday + Z.of_nat i) * msPerDay in
         row_key row = i
         /\ row_day row = Some (DateFromTime day)
         /\ row_items row
            = renderTask (isoDate day) <$> default [] (tasksByDate st !! isoDate day)
         /\ row_input row = newTask st
         /\ exists date,
              weekDatesOf tza (selectedDate st) !! i = Some date
              /\ formatDateToYYYYMMDD tza date = Normal (isoDate day)
              /\ row_onAdd row = ClickAdd date.
Proof.
  intros Hl Ht Htz Hy.
  destruct (week_of_selected_date tza _ t Hl Ht Htz Hy)
    as (monday & Hmon & Hr & _ & Hlen & Hkeys & Hdays).
  destruct (renderRows_spec tza st _ _ Hkeys 0%nat) as (rows & Hrows & Hlen' & Hrow).
  exists monday, rows. split; [done|]. split; [done|]. split; [done|].
  split; [congruence|].
  intros i row Hi.
  destruct (Hrow i row Hi) as (date & key & Hd & Hk & ->).
  rewrite list_lookup_fmap in Hk.
  destruct (seqZ 0 7 !! i) as [j|] eqn:Hj; [|done].
  injection Hk as <-.
  pose proof (Forall2_lookup_lr _ _ _ _ _ _ Hdays Hd Hj) as Hday.
  pose proof (Forall2_lookup_lr _ _ _ _ _ _ Hkeys Hd
                ltac:(by rewrite list_lookup_fmap, Hj)) as Hfmt.
  apply lookup_seqZ in Hj as [-> _]. rewrite !Z.add_0_l in *.
  cbn. split_and!; try done. by exists date.
Qed.

Lemma render_week_witness :
  let st := sampleState (js "Buy milk") {[ js "2024-06-12" := [sampleTask 1] ]} in
  exists rows row,
    render 0 st = Normal rows /\ rows !! 2%nat = Some row
    /\ row_day row = Some 12
    /\ row_items row = [renderTask (js "2024-06-12") (sampleTask 1)]
    /\ row_input row = js "Buy milk".
Proof.
  intros st.
  destruct (render_week 0 st (19886 * msPerDay))
    as (monday & rows & Hmon & Hr & Hrender & Hlen & Hrow).
  - reflexivity.
  - by vm_compute.
  - by vm_compute.
  - by vm_compute.
  - rewrite Day_of_midnight in Hr.
    assert (monday = 19884) as ->
      by (unfold WeekDay in Hmon; rewrite Day_of_midnight in Hmon; zdiv).
    destruct (rows !! 2%nat) as [row|] eqn:E;
      [|apply lookup_ge_None_1 in E; lia].
    destruct (Hrow 2%nat row E) as (_ & Hday & Hitems & Hinput & _).
    exists rows, row. split; [exact Hrender|]. split; [exact E|].
    rewrite Hday, Hitems, Hinput. split; [|split]; vm_compute; reflexivity.
Defined.


